(** * api-handler: the request handlers of [demo/api-handler.py]

    A shallow embedding of the handlers of [demo/api-handler.py] together
    with the collaborators they drive (the sqlite3 connection, the
    [requests] client, [subprocess], the file system), and the properties
    of the handlers that the service specification talks about.

    Layout:
    - [Py]       Python values, truthiness, exceptions;
    - [MiniSql]  the statement fragment of the sqlite3 engine that the
                 handlers issue: tokenizer, parser, evaluation;
    - [Path]     resolution of an absolute POSIX path;
    - [Runtime]  the world the handlers run in, the trace of calls to the
                 collaborators, the state-and-exception monad;
    - [Handler]  the handlers, one definition per Python function;
    - [Text]     [str.replace] and membership of a substring;
    - [Host]     the handlers that read a text file or print, in the
                 world extended with the standard output;
    - [Store]    typed user, token and record stores and their tables;
    - the lemmas on tokenizing and running the handlers' statements, and
      one section of theorems per handler;
    - the properties that hold across the handlers: what the query
      handlers call and leave behind, what they answer, uploads in a
      row, templates and the request log. *)

From Stdlib Require Import ZArith Ascii String List Bool Lia.
From Stdlib Require Import DecimalString DecimalPos.
From stdpp Require Import gmap strings list.

Set Warnings "-register-all".
Open Scope string_scope.
Open Scope Z_scope.

(* ===================================================================== *)
(** ** Python values *)
(* ===================================================================== *)

Module Py.

(** The values the handlers build and return. A [dict] literal keeps its
    items in insertion order. *)
Inductive Val : Type :=
| VNone
| VBool (b : bool)
| VInt (z : Z)
| VStr (s : string)
| VTuple (items : list Val)
| VList (items : list Val)
| VDict (items : list (string * Val)).

(** Python truth value testing ([if x:], [x and y]). *)
Definition truthy (v : Val) : bool :=
  match v with
  | VNone => false
  | VBool b => b
  | VInt z => negb (z =? 0)
  | VStr s => negb (String.eqb s "")
  | VTuple l | VList l => match l with [] => false | _ => true end
  | VDict l => match l with [] => false | _ => true end
  end.


(** [d[k]] on a dict value, [None] when the key is absent. *)
Fixpoint assoc (k : string) (l : list (string * Val)) : option Val :=
  match l with
  | [] => None
  | (k', v) :: l' => if String.eqb k k' then Some v else assoc k l'
  end.

Definition field (k : string) (v : Val) : option Val :=
  match v with
  | VDict l => assoc k l
  | _ => None
  end.

(** *** [repr] and [str] *)

Definition decimal (z : Z) : string :=
  DecimalString.NilZero.string_of_int (Z.to_int z).

Definition chr (n : N) : string := String (ascii_of_N n) EmptyString.

Definition hex_digit (n : N) : string :=
  if (n <? 10)%N then chr (48 + n) else chr (87 + n).

(** The characters [repr] shows as they are: printable ASCII, and the
    printable part of Latin-1 (from 161 on, the soft hyphen apart). *)
Definition printable (c : ascii) : bool :=
  let n := N_of_ascii c in
  ((32 <=? n) && (n <? 127) || (161 <=? n) && negb (n =? 173))%N.

Fixpoint has_char (n : N) (s : string) : bool :=
  match s with
  | EmptyString => false
  | String c s' => (N_of_ascii c =? n)%N || has_char n s'
  end.

(** The quote [repr] puts around a string: double when the string has a
    single quote and no double quote, single otherwise. *)
Definition pick_quote (s : string) : N :=
  if has_char 39 s && negb (has_char 34 s) then 34%N else 39%N.

Definition escape_char (quote : N) (c : ascii) : string :=
  let n := N_of_ascii c in
  if ((n =? quote) || (n =? 92))%N then chr 92 +:+ chr n
  else if (n =? 9)%N then chr 92 +:+ "t"
  else if (n =? 10)%N then chr 92 +:+ "n"
  else if (n =? 13)%N then chr 92 +:+ "r"
  else if printable c then chr n
  else chr 92 +:+ "x" +:+ hex_digit (n / 16) +:+ hex_digit (n mod 16).

Fixpoint escape (quote : N) (s : string) : string :=
  match s with
  | EmptyString => EmptyString
  | String c s' => escape_char quote c +:+ escape quote s'
  end.

Definition repr_str (s : string) : string :=
  let q := pick_quote s in chr q +:+ escape q s +:+ chr q.

Fixpoint repr (v : Val) : string :=
  match v with
  | VNone => "None"
  | VBool true => "True"
  | VBool false => "False"
  | VInt z => decimal z
  | VStr s => repr_str s
  | VTuple l =>
      match l with
      | [] => "()"
      | [x] => "(" +:+ repr x +:+ ",)"
      | _ => "(" +:+ String.concat ", " (map repr l) +:+ ")"
      end
  | VList l => "[" +:+ String.concat ", " (map repr l) +:+ "]"
  | VDict l =>
      "{" +:+ String.concat ", "
                (map (fun kv => repr_str (fst kv) +:+ ": " +:+ repr (snd kv)) l)
      +:+ "}"
  end.

(** [str(v)], which is also what an f-string puts in for [{v}]. *)
Definition str (v : Val) : string :=
  match v with
  | VStr s => s
  | _ => repr v
  end.

(** Exceptions, by class. [str(e)] is the message. *)
Inductive ExnClass : Type :=
| IndexError
| TypeError
| ValueError
| OSError
| NulInQuery              (* execute: "the query contains a null character" *)
| OperationalError        (* sqlite3.OperationalError *)
| TooMuchSql              (* execute: "You can only execute one statement
                             at a time." *)
| RequestException.       (* requests.exceptions.RequestException *)

Record Exn : Type := mkExn { exn_class : ExnClass; exn_msg : string }.

Definition str_exn (e : Exn) : string := exn_msg e.

End Py.

(* ===================================================================== *)
(** ** The sqlite3 statement fragment *)
(* ===================================================================== *)

(** The handlers hand SQL text to [cursor.execute]. What the engine does
    with a text decides what the handlers return, so the fragment of the
    engine that their statements live in is modelled here: single-table
    [SELECT ... FROM t WHERE ...] over [=], [LIKE], [AND], [OR], and
    [DROP TABLE t]. A text is a sequence of 8-bit characters. The result
    [Beyond] marks a text (or a comparison) on which this model is silent;
    it never stands for an engine error. The engine errors the model
    reports are the one no reading of the text can avoid, a string
    literal that is still open where the first statement ends, and the
    limits of the engine that a statement of the fragment can reach:
    the deepest expression, the most result columns, the longest LIKE
    pattern. *)

Module MiniSql.

Definition code (c : ascii) : N := N_of_ascii c.

Definition is_space (c : ascii) : bool :=
  let n := code c in
  ((n =? 32) || (n =? 9) || (n =? 10) || (n =? 12) || (n =? 13))%N.

Definition is_digit (c : ascii) : bool :=
  let n := code c in ((48 <=? n) && (n <=? 57))%N.

Definition is_upper (c : ascii) : bool :=
  let n := code c in ((65 <=? n) && (n <=? 90))%N.

Definition is_lower (c : ascii) : bool :=
  let n := code c in ((97 <=? n) && (n <=? 122))%N.

Definition is_alpha (c : ascii) : bool :=
  is_upper c || is_lower c || (code c =? 95)%N.

Definition is_quote (c : ascii) : bool := (code c =? 39)%N.

Definition digit_val (c : ascii) : Z := Z.of_N (code c) - 48.

(** Operator characters that are tokens of their own and never open a
    quoted or commented region: [%], [+], [(], [)], [<], [>]. *)
Definition is_op (c : ascii) : bool :=
  let n := code c in
  ((n =? 37) || (n =? 43) || (n =? 40) || (n =? 41) || (n =? 60) || (n =? 62))%N.

(** ASCII case folding, as the engine applies it to keywords, names and
    LIKE. *)
Definition lower (c : ascii) : ascii :=
  if is_upper c then ascii_of_N (code c + 32) else c.

Fixpoint lower_str (s : string) : string :=
  match s with
  | EmptyString => EmptyString
  | String c s' => String (lower c) (lower_str s')
  end.

Definition ci_eqb (a b : string) : bool := String.eqb (lower_str a) (lower_str b).

Definition snoc (s : string) (c : ascii) : string := s +:+ String c EmptyString.

(** *** Tokens *)

Inductive Token : Type :=
| TWord (w : string)      (* keyword or name *)
| TInt (z : Z)
| TReal                   (* digits beyond the integers: a REAL literal *)
| TStr (s : string)       (* 'text', with '' read as one quote *)
| TStar
| TComma
| TEq
| TSemi
| TOp (c : ascii)         (* an operator the fragment has no statement for *)
| TIllegal                (* a string literal that is never closed *)
| TOther (c : ascii).     (* a character outside the modelled fragment *)

(** The largest integer literal; a longer run of digits is a REAL, which
    the fragment has no statement for. *)
Definition max_int : Z := 9223372036854775807.

Definition num_token (n : Z) : Token :=
  if n <=? max_int then TInt n else TReal.

(** The tokenizer is a state machine over the characters of the text. *)
Inductive Mode : Type :=
| MDefault
| MWord (acc : string)
| MNum (acc : Z)
| MStr (acc : string)     (* inside '...' *)
| MStrQ (acc : string)    (* inside '...', just after a quote *)
| MDash                   (* just after a single - *)
| MComment.               (* after --, up to the end of the line *)

Definition step_default (c : ascii) : Mode * list Token :=
  if is_space c then (MDefault, [])
  else if is_alpha c then (MWord (String c EmptyString), [])
  else if is_digit c then (MNum (digit_val c), [])
  else if is_quote c then (MStr EmptyString, [])
  else if (code c =? 45)%N then (MDash, [])
  else if (code c =? 42)%N then (MDefault, [TStar])
  else if (code c =? 44)%N then (MDefault, [TComma])
  else if (code c =? 61)%N then (MDefault, [TEq])
  else if (code c =? 59)%N then (MDefault, [TSemi])
  else if is_op c then (MDefault, [TOp c])
  else (MDefault, [TOther c]).

Definition emit_then (t : Token) (c : ascii) : Mode * list Token :=
  let '(m, ts) := step_default c in (m, t :: ts).

Definition step (m : Mode) (c : ascii) : Mode * list Token :=
  match m with
  | MDefault => step_default c
  | MWord acc =>
      if is_alpha c || is_digit c then (MWord (snoc acc c), [])
      else emit_then (TWord acc) c
  | MNum n =>
      if is_digit c then (MNum (10 * n + digit_val c), [])
      else if is_alpha c || (code c =? 46)%N then (MDefault, [TOther c])
      else emit_then (num_token n) c
  | MStr acc =>
      if is_quote c then (MStrQ acc, []) else (MStr (snoc acc c), [])
  | MStrQ acc =>
      if is_quote c then (MStr (snoc acc c), [])
      else emit_then (TStr acc) c
  | MDash =>
      if (code c =? 45)%N then (MComment, [])
      else emit_then (TOther "-"%char) c
  | MComment =>
      if (code c =? 10)%N then (MDefault, []) else (MComment, [])
  end.

Definition flush (m : Mode) : list Token :=
  match m with
  | MDefault | MComment => []
  | MWord acc => [TWord acc]
  | MNum n => [num_token n]
  | MStr _ => [TIllegal]
  | MStrQ acc => [TStr acc]
  | MDash => [TOther "-"%char]
  end.

Fixpoint lex_from (m : Mode) (s : string) : list Token :=
  match s with
  | EmptyString => flush m
  | String c s' => let '(m', ts) := step m c in (ts ++ lex_from m' s')%list
  end.

Definition lex (s : string) : list Token := lex_from MDefault s.

(** The tokenizer stopped in the middle of a text: the mode reached and
    the tokens completed so far. *)
Fixpoint scan (m : Mode) (s : string) : Mode * list Token :=
  match s with
  | EmptyString => (m, [])
  | String c s' =>
      let '(m', ts) := step m c in
      let '(m'', ts') := scan m' s' in
      (m'', (ts ++ ts')%list)
  end.

(** The number a run of decimal digits denotes, continuing from [acc]. *)
Fixpoint uint_value (d : Decimal.uint) (acc : Z) : Z :=
  match d with
  | Decimal.Nil => acc
  | Decimal.D0 l => uint_value l (10 * acc + 0)
  | Decimal.D1 l => uint_value l (10 * acc + 1)
  | Decimal.D2 l => uint_value l (10 * acc + 2)
  | Decimal.D3 l => uint_value l (10 * acc + 3)
  | Decimal.D4 l => uint_value l (10 * acc + 4)
  | Decimal.D5 l => uint_value l (10 * acc + 5)
  | Decimal.D6 l => uint_value l (10 * acc + 6)
  | Decimal.D7 l => uint_value l (10 * acc + 7)
  | Decimal.D8 l => uint_value l (10 * acc + 8)
  | Decimal.D9 l => uint_value l (10 * acc + 9)
  end.

(** A string that, put between two quotes of a statement, neither
    closes the string literal nor is refused by [execute]: it has no
    quote and no NUL character. *)
Fixpoint plain (s : string) : bool :=
  match s with
  | EmptyString => true
  | String c s' => negb (is_quote c) && negb (code c =? 0)%N && plain s'
  end.

(** *** Statements *)

Inductive Operand : Type :=
| OCol (name : string)
| OStr (s : string)
| OInt (z : Z).

Inductive CmpOp : Type := OpEq | OpLike.

Record Cmp : Type := mkCmp { c_lhs : Operand; c_op : CmpOp; c_rhs : Operand }.

(** A condition is a disjunction of conjunctions: AND binds tighter than
    OR, and the fragment has no parentheses. *)
Definition Cond : Type := list (list Cmp).

Inductive Stmt : Type :=
| SSelect (cols : option (list string)) (table : string) (cond : option Cond)
| SDrop (table : string).

(** The engine's keywords; none of them is read as a table or column
    name. *)
Definition reserved : list string :=
  ["abort"; "action"; "add"; "after"; "all"; "alter"; "always"; "analyze";
   "and"; "as"; "asc"; "attach"; "autoincrement"; "before"; "begin";
   "between"; "by"; "cascade"; "case"; "cast"; "check"; "collate"; "column";
   "commit"; "conflict"; "constraint"; "create"; "cross"; "current";
   "current_date"; "current_time"; "current_timestamp"; "database";
   "default"; "deferrable"; "deferred"; "delete"; "desc"; "detach";
   "distinct"; "do"; "drop"; "each"; "else"; "end"; "escape"; "except";
   "exclude"; "exclusive"; "exists"; "explain"; "fail"; "false"; "filter";
   "first"; "following"; "for"; "foreign"; "from"; "full"; "generated";
   "glob"; "group"; "groups"; "having"; "if"; "ignore"; "immediate"; "in";
   "index"; "indexed"; "initially"; "inner"; "insert"; "instead";
   "intersect"; "into"; "is"; "isnull"; "join"; "key"; "last"; "left";
   "like"; "limit"; "match"; "materialized"; "natural"; "no"; "not";
   "nothing"; "notnull"; "null"; "nulls"; "of"; "offset"; "on"; "or";
   "order"; "others"; "outer"; "over"; "partition"; "plan"; "pragma";
   "preceding"; "primary"; "query"; "raise"; "range"; "recursive";
   "references"; "regexp"; "reindex"; "release"; "rename"; "replace";
   "restrict"; "returning"; "right"; "rollback"; "row"; "rows"; "savepoint";
   "select"; "set"; "table"; "temp"; "temporary"; "then"; "ties"; "to";
   "transaction"; "trigger"; "true"; "unbounded"; "union"; "unique";
   "update"; "using"; "vacuum"; "values"; "view"; "virtual"; "when";
   "where"; "window"; "with"; "without"].

Definition kw (w k : string) : bool := String.eqb (lower_str w) k.

Definition is_name (w : string) : bool :=
  negb (existsb (String.eqb (lower_str w)) reserved).

Definition parse_operand (t : Token) : option Operand :=
  match t with
  | TWord w => if is_name w then Some (OCol w) else None
  | TStr s => Some (OStr s)
  | TInt z => Some (OInt z)
  | _ => None
  end.

Definition parse_op (t : Token) : option CmpOp :=
  match t with
  | TEq => Some OpEq
  | TWord w => if kw w "like" then Some OpLike else None
  | _ => None
  end.

Definition parse_cmp (a o b : Token) : option Cmp :=
  match parse_operand a, parse_op o, parse_operand b with
  | Some l, Some op, Some r => Some (mkCmp l op r)
  | _, _, _ => None
  end.

Fixpoint parse_cond (ts : list Token) : option Cond :=
  match ts with
  | a :: o :: b :: rest =>
      match parse_cmp a o b with
      | None => None
      | Some c =>
          match rest with
          | [] => Some [[c]]
          | TWord w :: rest' =>
              if kw w "and" then
                match parse_cond rest' with
                | Some (g :: gs) => Some ((c :: g) :: gs)
                | _ => None
                end
              else if kw w "or" then
                match parse_cond rest' with
                | Some gs => Some ([c] :: gs)
                | None => None
                end
              else None
          | _ => None
          end
      end
  | _ => None
  end.

Fixpoint parse_cols (ts : list Token) : option (list string * list Token) :=
  match ts with
  | TWord c :: TComma :: rest =>
      if is_name c then
        match parse_cols rest with
        | Some (cs, r) => Some (c :: cs, r)
        | None => None
        end
      else None
  | TWord c :: rest => if is_name c then Some ([c], rest) else None
  | _ => None
  end.

Definition parse_from (cols : option (list string)) (ts : list Token)
  : option Stmt :=
  match ts with
  | TWord f :: TWord t :: rest =>
      if kw f "from" && is_name t then
        match rest with
        | [] => Some (SSelect cols t None)
        | TWord w :: rest' =>
            if kw w "where" then
              match parse_cond rest' with
              | Some c => Some (SSelect cols t (Some c))
              | None => None
              end
            else None
        | _ => None
        end
      else None
  | _ => None
  end.

Definition parse_stmt (ts : list Token) : option Stmt :=
  match ts with
  | TWord s :: rest =>
      if kw s "select" then
        match rest with
        | TStar :: rest' => parse_from None rest'
        | _ =>
            match parse_cols rest with
            | Some (cs, rest') => parse_from (Some cs) rest'
            | None => None
            end
        end
      else if kw s "drop" then
        match rest with
        | [TWord t; TWord n] =>
            if kw t "table" && is_name n then Some (SDrop n) else None
        | _ => None
        end
      else None
  | _ => None
  end.

(** The structure of a statement: the statement with the values of its
    literals erased. *)
Definition erase_operand (o : Operand) : Operand :=
  match o with
  | OCol c => OCol c
  | OStr _ => OStr EmptyString
  | OInt _ => OInt 0
  end.

Definition erase_cmp (c : Cmp) : Cmp :=
  mkCmp (erase_operand (c_lhs c)) (c_op c) (erase_operand (c_rhs c)).

Definition shape (st : Stmt) : Stmt :=
  match st with
  | SSelect cols t cond => SSelect cols t (option_map (map (map erase_cmp)) cond)
  | SDrop t => SDrop t
  end.

(** *** Tables *)

Inductive Cell : Type :=
| CNull
| CInt (z : Z)
| CText (s : string).

Definition Row : Type := list Cell.

Record Table : Type := mkTable { t_cols : list string; t_rows : list Row }.

Definition Database : Type := list (string * Table).

Fixpoint find_table (name : string) (db : Database) : option Table :=
  match db with
  | [] => None
  | (n, t) :: db' => if ci_eqb n name then Some t else find_table name db'
  end.

Fixpoint drop_table (name : string) (db : Database) : Database :=
  match db with
  | [] => []
  | (n, t) :: db' =>
      if ci_eqb n name then drop_table name db' else (n, t) :: drop_table name db'
  end.

Fixpoint col_index (name : string) (cols : list string) : option nat :=
  match cols with
  | [] => None
  | c :: cols' =>
      if ci_eqb c name then Some 0%nat
      else option_map S (col_index name cols')
  end.

(** *** LIKE *)

(** LIKE reads its operands as C strings: up to the first NUL. *)
Fixpoint c_string (s : string) : string :=
  match s with
  | EmptyString => EmptyString
  | String c s' => if (code c =? 0)%N then EmptyString else String c (c_string s')
  end.

(** [like_match p s]: [s LIKE p]; [%] matches any run of characters, [_]
    exactly one, any other character itself up to ASCII case. *)
Fixpoint like_match (p : string) : string -> bool :=
  match p with
  | EmptyString => fun s => match s with EmptyString => true | _ => false end
  | String c p' =>
      if (code c =? 37)%N then
        fix skip (s : string) : bool :=
          like_match p' s ||
          match s with
          | EmptyString => false
          | String _ s' => skip s'
          end
      else if (code c =? 95)%N then
        fun s => match s with
                 | EmptyString => false
                 | String _ s' => like_match p' s'
                 end
      else
        fun s => match s with
                 | EmptyString => false
                 | String d s' => Ascii.eqb (lower c) (lower d) && like_match p' s'
                 end
  end.

(** What a pattern without wildcards between two [%] asks for: the text
    occurs somewhere in the value, up to ASCII case. *)
Fixpoint prefix_ci (t s : string) : bool :=
  match t with
  | EmptyString => true
  | String c t' =>
      match s with
      | EmptyString => false
      | String d s' => Ascii.eqb (lower c) (lower d) && prefix_ci t' s'
      end
  end.

Fixpoint contains_ci (t s : string) : bool :=
  prefix_ci t s ||
  match s with
  | EmptyString => false
  | String _ s' => contains_ci t s'
  end.

Fixpoint wildcard_free (t : string) : bool :=
  match t with
  | EmptyString => true
  | String c t' =>
      negb (code c =? 37)%N && negb (code c =? 95)%N && wildcard_free t'
  end.

(** *** Limits of the engine *)

(** The bytes of a text in UTF-8: one for an ASCII character, two for
    any other of the 8-bit characters. *)
Fixpoint utf8_length (s : string) : N :=
  match s with
  | EmptyString => 0%N
  | String c s' => ((if code c <? 128 then 1 else 2) + utf8_length s')%N
  end.

(** The longest LIKE pattern, in bytes; the deepest expression tree;
    the most columns of a result. *)
Definition max_like_pattern : N := 50000.

Definition max_expr_depth : N := 1000.

Definition max_columns : N := 2000.

Definition pattern_fits (p : string) : bool :=
  (utf8_length p <=? max_like_pattern)%N.

(** The longest statement text, in bytes. A longer text does not reach
    the engine, and the model has no answer of the engine for it: what
    is proved below of a statement that the engine answers or refuses
    is stated for texts within this limit. *)
Definition max_sql_length : N := 1000000000.

Definition sql_fits (sql : string) : bool :=
  (utf8_length sql <=? max_sql_length)%N.

(** The height of the expression tree of a condition. A comparison of
    two operands has height 2; [AND] and [OR] associate to the left and
    each adds one to the higher of its two sides. *)
Definition group_height (g : list Cmp) : N := (N.of_nat (length g) + 1)%N.

Definition cond_height (c : Cond) : N :=
  match c with
  | [] => 0%N
  | g :: gs =>
      fold_left (fun h g' => (N.max h (group_height g') + 1)%N) gs
                (group_height g)
  end.

Definition too_deep (st : Stmt) : bool :=
  match st with
  | SSelect _ _ (Some c) => (max_expr_depth <? cond_height c)%N
  | _ => false
  end.

Definition too_wide (st : Stmt) : bool :=
  match st with
  | SSelect (Some cs) _ _ => (max_columns <? N.of_nat (length cs))%N
  | _ => false
  end.

Definition starts_with_wildcard (p : string) : bool :=
  match p with
  | EmptyString => false
  | String c _ => (code c =? 37)%N || (code c =? 95)%N
  end.

(** The engine refuses a LIKE pattern beyond the limit at the first row
    on which it evaluates the test. Where the condition is that one
    test, of a column against a literal that begins with a wildcard
    (so that no index can stand in for the test), this is the first row
    of the table. *)
Definition like_refused (cond : option Cond) (rows : list Row) : bool :=
  match cond with
  | Some [[c]] =>
      match c_lhs c, c_op c, c_rhs c with
      | OCol _, OpLike, OStr p =>
          negb (pattern_fits p) && starts_with_wildcard p &&
          match rows with [] => false | _ :: _ => true end
      | _, _, _ => false
      end
  | _ => false
  end.

(** *** Evaluation *)

(** SQL truth values. *)
Inductive Tri : Type := TT | TF | TN.

Definition tri_of_bool (b : bool) : Tri := if b then TT else TF.

Definition and3 (a b : Tri) : Tri :=
  match a, b with
  | TF, _ | _, TF => TF
  | TT, TT => TT
  | _, _ => TN
  end.

Definition or3 (a b : Tri) : Tri :=
  match a, b with
  | TT, _ | _, TT => TT
  | TF, TF => TF
  | _, _ => TN
  end.

Definition eval_operand (cols : list string) (r : Row) (o : Operand)
  : option Cell :=
  match o with
  | OCol c =>
      match col_index c cols with
      | Some i => nth_error r i
      | None => None
      end
  | OStr s => Some (CText s)
  | OInt z => Some (CInt z)
  end.

(** [None]: a comparison between storage classes, which the engine
    settles by affinity rules that are not modelled, or a LIKE whose
    pattern is beyond the limit, which the engine refuses at the row
    where it evaluates the test. *)
Definition eval_cmp_cells (op : CmpOp) (a b : Cell) : option Tri :=
  match a, b with
  | CNull, _ | _, CNull => Some TN
  | CInt x, CInt y =>
      match op with
      | OpEq => Some (tri_of_bool (x =? y))
      | OpLike => None
      end
  | CText x, CText y =>
      match op with
      | OpEq => Some (tri_of_bool (String.eqb x y))
      | OpLike =>
          if pattern_fits y
          then Some (tri_of_bool (like_match (c_string y) (c_string x)))
          else None
      end
  | _, _ => None
  end.

Definition eval_cmp (cols : list string) (r : Row) (c : Cmp) : option Tri :=
  match eval_operand cols r (c_lhs c), eval_operand cols r (c_rhs c) with
  | Some a, Some b => eval_cmp_cells (c_op c) a b
  | _, _ => None
  end.

Fixpoint eval_and (cols : list string) (r : Row) (g : list Cmp) : option Tri :=
  match g with
  | [] => Some TT
  | c :: g' =>
      match eval_cmp cols r c, eval_and cols r g' with
      | Some a, Some b => Some (and3 a b)
      | _, _ => None
      end
  end.

Fixpoint eval_cond (cols : list string) (r : Row) (c : Cond) : option Tri :=
  match c with
  | [] => Some TF
  | g :: c' =>
      match eval_and cols r g, eval_cond cols r c' with
      | Some a, Some b => Some (or3 a b)
      | _, _ => None
      end
  end.

Definition keeps (cols : list string) (cond : option Cond) (r : Row)
  : option bool :=
  match cond with
  | None => Some true
  | Some c =>
      match eval_cond cols r c with
      | Some TT => Some true
      | Some _ => Some false
      | None => None
      end
  end.

Fixpoint select_rows (cols : list string) (cond : option Cond) (rs : list Row)
  : option (list Row) :=
  match rs with
  | [] => Some []
  | r :: rs' =>
      match keeps cols cond r, select_rows cols cond rs' with
      | Some true, Some out => Some (r :: out)
      | Some false, Some out => Some out
      | _, _ => None
      end
  end.

Fixpoint project_row (idx : list nat) (r : Row) : option Row :=
  match idx with
  | [] => Some []
  | i :: idx' =>
      match nth_error r i, project_row idx' r with
      | Some c, Some out => Some (c :: out)
      | _, _ => None
      end
  end.

Fixpoint project_rows (idx : list nat) (rs : list Row) : option (list Row) :=
  match rs with
  | [] => Some []
  | r :: rs' =>
      match project_row idx r, project_rows idx rs' with
      | Some x, Some out => Some (x :: out)
      | _, _ => None
      end
  end.

Fixpoint col_indices (names cols : list string) : option (list nat) :=
  match names with
  | [] => Some []
  | n :: names' =>
      match col_index n cols, col_indices names' cols with
      | Some i, Some out => Some (i :: out)
      | _, _ => None
      end
  end.

Definition operand_known (cols : list string) (o : Operand) : bool :=
  match o with
  | OCol c => match col_index c cols with Some _ => true | None => false end
  | _ => true
  end.

Definition cmp_known (cols : list string) (c : Cmp) : bool :=
  operand_known cols (c_lhs c) && operand_known cols (c_rhs c).

(** The statement names a table of the database and columns of that
    table. *)
Definition resolves (db : Database) (st : Stmt) : bool :=
  match st with
  | SSelect cols t cond =>
      match find_table t db with
      | None => false
      | Some tb =>
          match cols with
          | None => true
          | Some cs => match col_indices cs (t_cols tb) with
                       | Some _ => true
                       | None => false
                       end
          end &&
          match cond with
          | None => true
          | Some c => forallb (forallb (cmp_known (t_cols tb))) c
          end
      end
  | SDrop t => match find_table t db with Some _ => true | None => false end
  end.

Inductive SqlError : Type :=
| ErrSyntax          (* a text that is no statement *)
| ErrTooDeep         (* an expression tree beyond the depth limit *)
| ErrTooManyColumns  (* a result of more columns than the limit *)
| ErrLikePattern     (* a LIKE pattern beyond the length limit *)
| ErrTooMuchSql.     (* more than one statement in the text *)

Inductive Result : Type :=
| Rows (rs : list Row) (db' : Database)
| Error (e : SqlError)
| Beyond.

Definition exec_stmt (db : Database) (st : Stmt) : Result :=
  match st with
  | SSelect cols t cond =>
      match find_table t db with
      | None => Beyond
      | Some tb =>
          if like_refused cond (t_rows tb) then Error ErrLikePattern
          else
            match select_rows (t_cols tb) cond (t_rows tb) with
            | None => Beyond
            | Some kept =>
                match cols with
                | None => Rows kept db
                | Some cs =>
                    match col_indices cs (t_cols tb) with
                    | None => Beyond
                    | Some idx =>
                        match project_rows idx kept with
                        | Some out => Rows out db
                        | None => Beyond
                        end
                    end
                end
            end
      end
  | SDrop t =>
      if prefix_ci "sqlite_" t then Beyond else Rows [] (drop_table t db)
  end.

Definition is_other (t : Token) : bool :=
  match t with TOther _ => true | _ => false end.

Definition is_illegal (t : Token) : bool :=
  match t with TIllegal => true | _ => false end.

(** The tokens of the first statement, and what follows its semicolon. *)
Fixpoint split_semi (ts : list Token) : list Token * list Token :=
  match ts with
  | [] => ([], [])
  | TSemi :: rest => ([], rest)
  | t :: rest => let '(a, b) := split_semi rest in (t :: a, b)
  end.

(** Compiling a text: the first statement is parsed; what follows its
    semicolon is kept aside. *)
Inductive Compiled : Type :=
| COk (st : Stmt) (tail : list Token)
| CError (e : SqlError)
| CBeyond.

Definition compile (toks : list Token) : Compiled :=
  if existsb is_other toks then CBeyond
  else
    let '(first, tail) := split_semi toks in
    if existsb is_illegal first then CError ErrSyntax
    else
      match parse_stmt first with
      | None => CBeyond
      | Some st => COk st tail
      end.

(** One call of the engine on a text: the first statement is compiled
    against the database, within the limits on its expression and its
    columns, text after its semicolon is refused, the statement is
    run. *)
Definition run (db : Database) (sql : string) : Result :=
  match compile (lex sql) with
  | CBeyond => Beyond
  | CError e => Error e
  | COk st tail =>
      if too_deep st then Error ErrTooDeep
      else if negb (resolves db st) then Beyond
      else if too_wide st then Error ErrTooManyColumns
      else match tail with
           | [] => exec_stmt db st
           | _ :: _ => Error ErrTooMuchSql
           end
  end.

End MiniSql.

(* ===================================================================== *)
(** ** Path resolution *)
(* ===================================================================== *)

(** How the operating system resolves an absolute path, symbolic links
    apart: empty and [.] components are skipped, [..] steps back to the
    parent (the root is its own parent). *)

Module Path.

Definition is_slash (c : ascii) : bool := (MiniSql.code c =? 47)%N.

Fixpoint components_from (cur : string) (s : string) : list string :=
  match s with
  | EmptyString => [cur]
  | String c s' =>
      if is_slash c then cur :: components_from EmptyString s'
      else components_from (MiniSql.snoc cur c) s'
  end.

Definition components (s : string) : list string :=
  components_from EmptyString s.

(** The directory stack is kept innermost first. *)
Definition walk (stack : list string) (comp : string) : list string :=
  if String.eqb comp "" || String.eqb comp "." then stack
  else if String.eqb comp ".." then tl stack
  else comp :: stack.

Definition resolve (s : string) : list string :=
  rev (fold_left walk (components s) []).

(** Some component of the path is [..]. *)
Definition has_parent_step (s : string) : bool :=
  existsb (fun comp => String.eqb comp "..") (components s).

(** [under dir p]: the resolved path [p] lies in the directory [dir]. *)
Fixpoint under (dir p : list string) : bool :=
  match dir, p with
  | [], _ => true
  | d :: dir', c :: p' => String.eqb d c && under dir' p'
  | _ :: _, [] => false
  end.

End Path.

(* ===================================================================== *)
(** ** The world of the handlers *)
(* ===================================================================== *)

Module Runtime.

(** The module-level globals of [api-handler.py]. *)
Record Globals : Type := mkGlobals {
  API_KEY : string;
  DATABASE_PATH : string;
  DEBUG_MODE : bool
}.

Definition module_globals : Globals :=
  {| API_KEY := "sk-live-abc123xyz789secret";
     DATABASE_PATH := "/var/data/app.db";
     DEBUG_MODE := true |}.

(** The first argument of [subprocess.call]: one command line, or a
    list of arguments. *)
Inductive CmdArgs : Type :=
| CmdLine (line : string)
| CmdArgv (argv : list string).

(** The calls the handlers make to their collaborators, with the
    arguments that matter to the collaborator. *)
Inductive Call : Type :=
| SqliteConnect (path : string)
| CursorExecute (sql : string) (params : list Py.Val)
| ConnectionClose
| RequestsGet (url : Py.Val) (verify : bool)
| SubprocessCall (args : CmdArgs) (shell : bool)
| OsSystem (line : string)
| OpenFile (path : string) (mode : string)
| FileWrite (path : string) (data : string).

(** What the network answers to a GET. *)
Inductive NetReply : Type :=
| NetText (text : string)
| NetFail (e : Py.Exn).

(** How a command ends: with an exit status, or with an exception of
    the call that was to start it. *)
Inductive ShellReply : Type :=
| ExitStatus (status : Z)
| ShellFail (e : Py.Exn).

(** What [yaml.load] makes of a text. *)
Inductive YamlReply : Type :=
| YamlValue (v : Py.Val)
| YamlFail (e : Py.Exn).

(** The state a handler runs in and may change (the database that
    [sqlite3.connect] opens, the files by resolved path, the globals,
    the trace of its calls), and the behaviour of what lies outside the
    process: the network, the shell, whether a path can be opened for
    writing, the YAML loader, the traceback text of the exception being
    handled. *)
Record World : Type := mkWorld {
  w_globals : Globals;
  w_db : MiniSql.Database;
  w_files : gmap (list string) string;
  w_trace : list Call;
  w_net : Py.Val -> bool -> NetReply;
  w_shell : CmdArgs -> ShellReply;
  w_open_error : string -> option Py.Exn;
  w_yaml : string -> YamlReply;
  w_format_exc : string
}.

Definition set_trace (w : World) (t : list Call) : World :=
  mkWorld (w_globals w) (w_db w) (w_files w) t (w_net w) (w_shell w)
          (w_open_error w) (w_yaml w) (w_format_exc w).

Definition set_db (w : World) (db : MiniSql.Database) : World :=
  mkWorld (w_globals w) db (w_files w) (w_trace w) (w_net w) (w_shell w)
          (w_open_error w) (w_yaml w) (w_format_exc w).

Definition set_files (w : World) (f : gmap (list string) string) : World :=
  mkWorld (w_globals w) (w_db w) f (w_trace w) (w_net w) (w_shell w)
          (w_open_error w) (w_yaml w) (w_format_exc w).

Definition set_globals (w : World) (g : Globals) : World :=
  mkWorld g (w_db w) (w_files w) (w_trace w) (w_net w) (w_shell w)
          (w_open_error w) (w_yaml w) (w_format_exc w).

(** A line feed. *)
Definition nl : string := Py.chr 10.

Fixpoint has_nul (s : string) : bool :=
  match s with
  | EmptyString => false
  | String c s' => (MiniSql.code c =? 0)%N || has_nul s'
  end.

Definition embedded_null : Py.Exn := Py.mkExn Py.ValueError "embedded null byte".

(** A world right after the module is loaded: the globals have their
    module-level values, nothing has been called, no file is stored, no
    exception is being handled; the network is down, every command line
    exits with status 0 and every path can be opened, a NUL in either
    apart, and the YAML loader is the one that refuses a call without a
    [Loader]. *)
Definition boot (db : MiniSql.Database) : World :=
  {| w_globals := module_globals;
     w_db := db;
     w_files := ∅;
     w_trace := [];
     w_net := fun _ _ => NetFail (Py.mkExn Py.RequestException "unreachable");
     w_shell := fun args =>
       match args with
       | CmdLine line =>
           if has_nul line then ShellFail embedded_null else ExitStatus 0
       | CmdArgv argv =>
           if existsb has_nul argv then ShellFail embedded_null
           else ExitStatus 0
       end;
     w_open_error := fun path =>
       if has_nul path then Some embedded_null else None;
     w_yaml := fun _ =>
       YamlFail (Py.mkExn Py.TypeError
                   "load() missing 1 required positional argument: 'Loader'");
     w_format_exc := "NoneType: None" +:+ nl |}.

(** *** The monad: state, exceptions, and the silent outcome *)

Inductive Outcome (A : Type) : Type :=
| Returned (a : A)
| Raised (e : Py.Exn)
| Unmodelled.

Arguments Returned {A} a.
Arguments Raised {A} e.
Arguments Unmodelled {A}.

Definition M (A : Type) : Type := World -> Outcome A * World.

Definition ret {A} (a : A) : M A := fun w => (Returned a, w).

Definition raise {A} (e : Py.Exn) : M A := fun w => (Raised e, w).

Definition bind {A B} (c : M A) (k : A -> M B) : M B :=
  fun w =>
    match c w with
    | (Returned a, w') => k a w'
    | (Raised e, w') => (Raised e, w')
    | (Unmodelled, w') => (Unmodelled, w')
    end.

Notation "x <- c ;; k" := (bind c (fun x => k))
  (at level 100, c at next level, right associativity).
Notation "c ;;; k" := (bind c (fun _ => k))
  (at level 100, right associativity).

Definition gets {A} (f : World -> A) : M A := fun w => (Returned (f w), w).

Definition call (c : Call) : M unit :=
  fun w => (Returned tt, set_trace w (w_trace w ++ [c])).

(** *** sqlite3 *)

(** [sqlite3.connect(path)]: the database of the world is the one at
    the configured path, and it can be opened. A world in which the
    storage is out of reach, where [connect] itself raises, is outside
    the model: what is proved of a handler that queries is proved of it
    on the opened database. *)
Definition sqlite3_connect (path : string) : M unit :=
  call (SqliteConnect path).

(** The exception [execute] raises for an error of the engine. The
    class is the engine's. The message of a limit is the engine's; the
    message of a text that is no statement quotes the token at which
    the engine stopped, which the fragment does not determine:
    [syntax error] stands for it, and no property below rests on it. *)
Definition engine_exn (e : MiniSql.SqlError) : Py.Exn :=
  match e with
  | MiniSql.ErrSyntax => Py.mkExn Py.OperationalError "syntax error"
  | MiniSql.ErrTooDeep =>
      Py.mkExn Py.OperationalError
               "Expression tree is too large (maximum depth 1000)"
  | MiniSql.ErrTooManyColumns =>
      Py.mkExn Py.OperationalError "too many columns in result set"
  | MiniSql.ErrLikePattern =>
      Py.mkExn Py.OperationalError "LIKE or GLOB pattern too complex"
  | MiniSql.ErrTooMuchSql =>
      Py.mkExn Py.TooMuchSql "You can only execute one statement at a time."
  end.

(** [cursor.execute(sql)] with no parameter sequence, on the connection
    that [connect] opened; the rows that [fetchone] and [fetchall] will
    deliver. *)
Definition cursor_execute (sql : string) : M (list MiniSql.Row) :=
  call (CursorExecute sql []) ;;;
  if has_nul sql then
    raise (Py.mkExn Py.NulInQuery "the query contains a null character")
  else
    fun w =>
      match MiniSql.run (w_db w) sql with
      | MiniSql.Rows rs db' => (Returned rs, set_db w db')
      | MiniSql.Error e => (Raised (engine_exn e), w)
      | MiniSql.Beyond => (Unmodelled, w)
      end.

Definition conn_close : M unit := call ConnectionClose.

Definition py_of_cell (c : MiniSql.Cell) : Py.Val :=
  match c with
  | MiniSql.CNull => Py.VNone
  | MiniSql.CInt z => Py.VInt z
  | MiniSql.CText s => Py.VStr s
  end.

Definition py_of_row (r : MiniSql.Row) : Py.Val := Py.VTuple (map py_of_cell r).

(** [cursor.fetchone()] right after [execute]. *)
Definition fetchone (rs : list MiniSql.Row) : Py.Val :=
  match rs with
  | [] => Py.VNone
  | r :: _ => py_of_row r
  end.

(** [cursor.fetchall()] right after [execute]. *)
Definition fetchall (rs : list MiniSql.Row) : Py.Val := Py.VList (map py_of_row rs).

(** [v[i]] *)
Definition subscript (v : Py.Val) (i : nat) : M Py.Val :=
  match v with
  | Py.VTuple l | Py.VList l =>
      match nth_error l i with
      | Some x => ret x
      | None => raise (Py.mkExn Py.IndexError "index out of range")
      end
  | _ => raise (Py.mkExn Py.TypeError "object is not subscriptable")
  end.

(** *** requests, subprocess, os, open, yaml *)

(** [requests.get(url, verify=verify).text] *)
Definition requests_get (url : Py.Val) (verify : bool) : M string :=
  call (RequestsGet url verify) ;;;
  reply <- gets (fun w => w_net w url verify) ;;
  match reply with
  | NetText t => ret t
  | NetFail e => raise e
  end.

Definition shell_reply (reply : ShellReply) : M Z :=
  match reply with
  | ExitStatus status => ret status
  | ShellFail e => raise e
  end.

Definition subprocess_call (args : CmdArgs) (shell : bool) : M Z :=
  call (SubprocessCall args shell) ;;;
  reply <- gets (fun w => w_shell w args) ;;
  shell_reply reply.

Definition os_system (line : string) : M Z :=
  call (OsSystem line) ;;;
  reply <- gets (fun w => w_shell w (CmdLine line)) ;;
  shell_reply reply.

(** [with open(path, 'wb') as f: f.write(data)]: when the path can be
    opened, the file it resolves to holds [data] afterwards. *)
Definition open_write (path : string) (data : string) : M unit :=
  call (OpenFile path "wb") ;;;
  failure <- gets (fun w => w_open_error w path) ;;
  match failure with
  | Some e => raise e
  | None =>
      call (FileWrite path data) ;;;
      fun w =>
        (Returned tt, set_files w (<[Path.resolve path := data]> (w_files w)))
  end.

Definition yaml_load (text : string) : M Py.Val :=
  reply <- gets (fun w => w_yaml w text) ;;
  match reply with
  | YamlValue v => ret v
  | YamlFail e => raise e
  end.

(** [flask.jsonify(v)]: a response whose JSON body is [v]. *)
Record Response : Type := mkResponse { r_mimetype : string; r_json : Py.Val }.

Definition jsonify (v : Py.Val) : Response := mkResponse "application/json" v.

End Runtime.

(* ===================================================================== *)
(** ** The handlers *)
(* ===================================================================== *)

(** One definition per function of [api-handler.py], under its name;
    the text of each statement is a definition of its own ([search_query]
    and the like). [render_template] and [log_request], which read a
    text file and print, are in [Host] below. [process_user_input] and
    [parse_xml_input] hand their argument to [pickle.loads] and to the
    XML parser and are left out. *)

Module Handler.
Import Runtime.

(** A double-quote character, for the command line of [send_email]. *)
Definition dq : string := String (ascii_of_N 34) EmptyString.

(** Lines 18-21. *)
Definition get_db_connection : M unit :=
  path <- gets (fun w => DATABASE_PATH (w_globals w)) ;;
  sqlite3_connect path.

(** The world after one round of connect, execute and close that left
    the database as [db']. *)
Definition after_query (w : World) (sql : string) (db' : MiniSql.Database)
  : World :=
  set_trace (set_db w db')
            (w_trace w ++ [SqliteConnect (DATABASE_PATH (w_globals w));
                           CursorExecute sql [];
                           ConnectionClose]).

(** Lines 30-33: [subprocess.call(command, shell=True)]. *)
Definition run_system_command (command : CmdArgs) : M Py.Val :=
  result <- subprocess_call command true ;;
  ret (Py.VInt result).

(** Lines 35-39: [requests.get(url, verify=False)], then [yaml.load]. *)
Definition fetch_remote_config (url : Py.Val) : M Py.Val :=
  text <- requests_get url false ;;
  config <- yaml_load text ;;
  ret config.

(** Lines 41-52; [search_query] is the f-string of line 47. *)
Definition search_query (search_term : string) : string :=
  "SELECT * FROM records WHERE name LIKE '%" +:+ search_term +:+ "%'".

Definition search_database (search_term : string) : M Py.Val :=
  get_db_connection ;;;
  rows <- cursor_execute (search_query search_term) ;;
  let results := fetchall rows in
  conn_close ;;;
  ret results.



(** Lines 69-77. *)
Definition upload_file (file_content filename : string) : M Py.Val :=
  let file_path := "/uploads/" +:+ filename in
  open_write file_path file_content ;;;
  ret (Py.VDict [("success", Py.VBool true); ("path", Py.VStr file_path)]).

(** Lines 87-107; [profile_query] is the f-string of line 92, with the
    [str] of the id put in. *)
Definition profile_query (user_id : string) : string :=
  "SELECT id, username, email, password, ssn, credit_card FROM users WHERE id="
  +:+ user_id.

Definition get_user_profile (user_id : Py.Val) : M Py.Val :=
  get_db_connection ;;;
  rows <- cursor_execute (profile_query (Py.str user_id)) ;;
  let profile := fetchone rows in
  conn_close ;;;
  if Py.truthy profile then
    p0 <- subscript profile 0 ;;
    p1 <- subscript profile 1 ;;
    p2 <- subscript profile 2 ;;
    p3 <- subscript profile 3 ;;
    p4 <- subscript profile 4 ;;
    p5 <- subscript profile 5 ;;
    ret (Py.VDict [("id", p0); ("username", p1); ("email", p2);
                   ("password", p3); ("ssn", p4); ("credit_card", p5)])
  else ret Py.VNone.

(** Lines 109-119; [payload.get('callback')] is [None] for a missing
    key. *)
Definition handle_webhook (payload : gmap string Py.Val) : M Py.Val :=
  let callback_url := default Py.VNone (payload !! "callback") in
  if Py.truthy callback_url then
    text <- requests_get callback_url true ;;
    ret (Py.VStr text)
  else ret (Py.VStr "No callback").

(** Lines 121-133. *)
Definition export_data (format_type query : string) : M Py.Val :=
  get_db_connection ;;;
  data <- cursor_execute query ;;
  conn_close ;;;
  if String.eqb format_type "csv" then
    ret (Py.VStr (String.concat ","
                    (map (fun row => Py.str (py_of_row row)) data)))
  else ret (fetchall data).



(** Lines 158-163. *)
Definition create_backup (backup_name : string) : M Py.Val :=
  path <- gets (fun w => DATABASE_PATH (w_globals w)) ;;
  let cmd := "cp " +:+ path +:+ " /backups/" +:+ backup_name +:+ ".db" in
  os_system cmd ;;;
  ret (Py.VDict [("success", Py.VBool true)]).

(** Lines 165-170; [mail_command] is the f-string of line 168. *)
Definition mail_command (to_address subject body : string) : string :=
  "echo " +:+ dq +:+ body +:+ dq +:+ " | mail -s " +:+ dq +:+ subject +:+ dq
  +:+ " " +:+ to_address.

Definition send_email (to_address subject body : string) : M Py.Val :=
  let cmd := mail_command to_address subject body in
  subprocess_call (CmdLine cmd) true ;;;
  ret (Py.VBool true).

(** Lines 180-187. *)
Definition get_config : M Py.Val :=
  g <- gets w_globals ;;
  ret (Py.VDict [("api_key", Py.VStr (API_KEY g));
                 ("database", Py.VStr (DATABASE_PATH g));
                 ("debug", Py.VBool (DEBUG_MODE g));
                 ("secret", Py.VStr "super-secret-value-456")]).

(** Lines 190-200. *)
Definition handle_error (error : Py.Exn) : M Response :=
  let error_str := Py.str_exn error in
  tb <- gets w_format_exc ;;
  config <- get_config ;;
  let error_details :=
    Py.VDict [("error", Py.VStr error_str);
              ("traceback", Py.VStr tb);
              ("config", config)] in
  ret (jsonify error_details).

End Handler.

(* ===================================================================== *)
(** ** Text *)
(* ===================================================================== *)

(** The string methods that [render_template] and [log_request] rest
    on. *)

Module Text.

(** [old in s]: [old] starts at some position of [s]. *)
Fixpoint occurs (old s : string) : bool :=
  String.prefix old s ||
  match s with
  | EmptyString => false
  | String _ s' => occurs old s'
  end.

(** [s.replace(old, new)] for a non-empty [old], from left to right:
    where [old] starts, [new] is put out and the characters of [old]
    are skipped; [skip] counts those still to skip. *)
Fixpoint replace_from (skip : nat) (old new s : string) : string :=
  match s with
  | EmptyString => EmptyString
  | String c s' =>
      match skip with
      | S skip' => replace_from skip' old new s'
      | O =>
          if String.prefix old s
          then new +:+ replace_from (String.length old - 1) old new s'
          else String c (replace_from 0 old new s')
      end
  end.

(** With an empty [old], [new] goes before every character and at the
    end. *)
Fixpoint after_each (new s : string) : string :=
  match s with
  | EmptyString => EmptyString
  | String c s' => String c (new +:+ after_each new s')
  end.

Definition replace (s old new : string) : string :=
  match old with
  | EmptyString => new +:+ after_each new s
  | String _ _ => replace_from 0 old new s
  end.

(** Every character is an ASCII character. *)
Fixpoint ascii_only (s : string) : bool :=
  match s with
  | EmptyString => true
  | String c s' => (MiniSql.code c <? 128)%N && ascii_only s'
  end.

End Text.

(* ===================================================================== *)
(** ** The handlers that read and print *)
(* ===================================================================== *)

(** [render_template] reads a text file and [log_request] prints: the
    host adds to the world of the handlers the text printed so far and
    what reading a file gives. *)

Module Host.
Import Runtime.

(** What [open(path).read()] gives. *)
Inductive ReadReply : Type :=
| ReadText (text : string)
| ReadFail (e : Py.Exn).

(** The world of the handlers, the text printed so far, and what lies
    outside the process: what reading a file gives, whether printing a
    text raises. *)
Record Host : Type := mkHost {
  h_world : World;
  h_stdout : string;
  h_read : string -> ReadReply;
  h_print_error : string -> option Py.Exn
}.

Definition set_world (h : Host) (w : World) : Host :=
  mkHost w (h_stdout h) (h_read h) (h_print_error h).

Definition set_stdout (h : Host) (out : string) : Host :=
  mkHost (h_world h) out (h_read h) (h_print_error h).

Definition H (A : Type) : Type := Host -> Outcome A * Host.

Definition hret {A} (a : A) : H A := fun h => (Returned a, h).

Definition hbind {A B} (c : H A) (k : A -> H B) : H B :=
  fun h =>
    match c h with
    | (Returned a, h') => k a h'
    | (Raised e, h') => (Raised e, h')
    | (Unmodelled, h') => (Unmodelled, h')
    end.

Notation "x <~ c ;; k" := (hbind c (fun x => k))
  (at level 100, c at next level, right associativity).
Notation "c ;;~ k" := (hbind c (fun _ => k))
  (at level 100, right associativity).

(** A step of the handlers' monad, taken in the world of the host. *)
Definition lift {A} (c : M A) : H A :=
  fun h => (fst (c (h_world h)), set_world h (snd (c (h_world h)))).

(** [open(path).read()], in text mode. *)
Definition open_read (path : string) : H string :=
  lift (call (OpenFile path "r")) ;;~
  fun h =>
    match h_read h path with
    | ReadText text => (Returned text, h)
    | ReadFail e => (Raised e, h)
    end.

(** [print(text)]: the text and a line feed. *)
Definition print (text : string) : H unit :=
  fun h =>
    match h_print_error h text with
    | Some e => (Raised e, h)
    | None => (Returned tt, set_stdout h (h_stdout h +:+ text +:+ nl))
    end.

(** [with open(path, 'a') as f: f.write(text)]: when the path can be
    opened, the text goes behind what the file holds, and the file is
    created when there is none. The bytes that a character beyond ASCII
    is written as depend on the encoding of the locale and are not
    modelled. *)
Definition open_append (path : string) (text : string) : M unit :=
  call (OpenFile path "a") ;;;
  failure <- gets (fun w => w_open_error w path) ;;
  match failure with
  | Some e => raise e
  | None =>
      call (FileWrite path text) ;;;
      if Text.ascii_only text then
        fun w =>
          (Returned tt,
           set_files w
             (<[Path.resolve path :=
                  default "" (w_files w !! Path.resolve path) +:+ text]>
                (w_files w)))
      else fun w => (Unmodelled, w)
  end.

(** Lines 79-85. *)
Definition render_template (template_name user_input : string) : H Py.Val :=
  template <~ open_read ("templates/" +:+ template_name) ;;
  let rendered := Text.replace template "{{content}}" user_input in
  hret (Py.VStr rendered).

(** Lines 135-141. *)
Definition log_request (request_data : Py.Val) : H Py.Val :=
  debug <~ lift (gets (fun w => DEBUG_MODE (w_globals w))) ;;
  if debug then
    print ("Request received: " +:+ Py.str request_data) ;;~
    lift (open_append "/var/log/app.log" (Py.str request_data +:+ nl)) ;;~
    hret Py.VNone
  else hret Py.VNone.

(** One request after the other. *)
Definition log_requests (requests : list Py.Val) (h : Host) : Host :=
  fold_left (fun h' request_data => snd (log_request request_data h'))
            requests h.

(** The lines that [log_request] prints and writes for a list of
    requests. *)
Fixpoint printed_lines (requests : list Py.Val) : string :=
  match requests with
  | [] => EmptyString
  | r :: rest =>
      "Request received: " +:+ Py.str r +:+ nl +:+ printed_lines rest
  end.

Fixpoint logged_lines (requests : list Py.Val) : string :=
  match requests with
  | [] => EmptyString
  | r :: rest => Py.str r +:+ nl +:+ logged_lines rest
  end.

(** The file that [log_request] appends to, resolved. *)
Definition log_path : list string := ["var"; "log"; "app.log"].

(** A host right after the module is loaded: nothing printed, an
    output that takes every text, and one template. *)
Definition boot (db : MiniSql.Database) : Host :=
  {| h_world := Runtime.boot db;
     h_stdout := EmptyString;
     h_read := fun path =>
       if String.eqb path "templates/page.html"
       then ReadText "<p>{{content}}</p>"
       else ReadFail (Py.mkExn Py.OSError
                        ("[Errno 2] No such file or directory: "
                         +:+ Py.repr_str path));
     h_print_error := fun _ => None |}.

End Host.

(* ===================================================================== *)
(** ** The stores behind the tables *)
(* ===================================================================== *)

(** The tables that the statements of the handlers name, with the
    columns they name: [users] with its columns in the order in which
    [get_user_profile] selects them, [tokens], and [records]. *)

Module Store.

Record User : Type := mkUser {
  u_id : Z;
  u_username : string;
  u_email : string;
  u_password : string;
  u_ssn : string;
  u_credit_card : string
}.

Record Token : Type := mkToken { k_token : string; k_role : string }.

Record Rec : Type := mkRec { r_id : Z; r_name : string }.

Definition user_row (u : User) : MiniSql.Row :=
  [MiniSql.CInt (u_id u); MiniSql.CText (u_username u);
   MiniSql.CText (u_email u); MiniSql.CText (u_password u);
   MiniSql.CText (u_ssn u); MiniSql.CText (u_credit_card u)].

Definition token_row (k : Token) : MiniSql.Row :=
  [MiniSql.CText (k_token k); MiniSql.CText (k_role k)].

Definition rec_row (r : Rec) : MiniSql.Row :=
  [MiniSql.CInt (r_id r); MiniSql.CText (r_name r)].

Definition users_table (us : list User) : MiniSql.Table :=
  MiniSql.mkTable ["id"; "username"; "email"; "password"; "ssn"; "credit_card"]
                  (map user_row us).

Definition tokens_table (ks : list Token) : MiniSql.Table :=
  MiniSql.mkTable ["token"; "role"] (map token_row ks).

Definition records_table (rs : list Rec) : MiniSql.Table :=
  MiniSql.mkTable ["id"; "name"] (map rec_row rs).

Definition database (us : list User) (ks : list Token) (rs : list Rec)
  : MiniSql.Database :=
  [("users", users_table us); ("tokens", tokens_table ks);
   ("records", records_table rs)].


(** The first user with the given id. *)
Fixpoint find_user (id : Z) (us : list User) : option User :=
  match us with
  | [] => None
  | u :: us' => if u_id u =? id then Some u else find_user id us'
  end.


End Store.

(* ===================================================================== *)
(** ** Example stores *)
(* ===================================================================== *)

Definition alice : Store.User :=
  Store.mkUser 1 "alice" "alice@example.org" "s3cret" "123-45-6789"
               "4111111111111111".

Definition bob : Store.User :=
  Store.mkUser 2 "bob" "bob@example.org" "hunter2" "987-65-4321"
               "5500000000000004".

(** A search term of 49,999 bytes. *)
Definition long_term : string :=
  N.iter 49999 (String "a"%char) EmptyString.

Definition demo_db : MiniSql.Database :=
  Store.database
    [alice; bob]
    [Store.mkToken "tok-a" "admin"; Store.mkToken "tok-b" "standard"]
    [Store.mkRec 1 "O'Brien"; Store.mkRec 2 "Bob"].

(* ===================================================================== *)
(** ** The query handlers, by the engine's answer *)
(* ===================================================================== *)

(** The world after connect and an execute that did not return. *)
Definition left_open (w : Runtime.World) (sql : string) : Runtime.World :=
  Runtime.set_trace w
    (Runtime.w_trace w ++
     [Runtime.SqliteConnect (Runtime.DATABASE_PATH (Runtime.w_globals w));
      Runtime.CursorExecute sql []]).

(** What connect, execute, close and a pure answer [f] to the rows come
    to, by the engine's answer to the statement. *)
Definition query_result {A : Type} (f : list MiniSql.Row -> A)
           (w : Runtime.World) (sql : string)
  : Runtime.Outcome A * Runtime.World :=
  if Runtime.has_nul sql then
    (Runtime.Raised
       (Py.mkExn Py.NulInQuery "the query contains a null character"),
     left_open w sql)
  else
    match MiniSql.run (Runtime.w_db w) sql with
    | MiniSql.Rows rows db' =>
        (Runtime.Returned (f rows), Handler.after_query w sql db')
    | MiniSql.Error e => (Runtime.Raised (Runtime.engine_exn e), left_open w sql)
    | MiniSql.Beyond => (Runtime.Unmodelled, left_open w sql)
    end.




Definition export_answer (format_type : string) (rows : list MiniSql.Row)
  : Py.Val :=
  if String.eqb format_type "csv" then
    Py.VStr (String.concat ","
               (map (fun row => Py.str (Runtime.py_of_row row)) rows))
  else Runtime.fetchall rows.





(** The outcome is an exception of the class [cls]. *)
Definition raises {A : Type} (cls : Py.ExnClass) (r : Runtime.Outcome A)
  : Prop :=
  match r with
  | Runtime.Raised e => Py.exn_class e = cls
  | _ => False
  end.


(* ===================================================================== *)
(** ** Tokenizing an interpolated statement *)
(* ===================================================================== *)

Import MiniSql.

Lemma append_cons (c : ascii) (s t : string) :
  String c s +:+ t = String c (s +:+ t).
Proof. reflexivity. Qed.

Lemma append_nil_l (t : string) : EmptyString +:+ t = t.
Proof. reflexivity. Qed.

Lemma append_nil_r (s : string) : s +:+ EmptyString = s.
Proof.
  induction s as [|c s IH]; [reflexivity|]. now rewrite append_cons, IH.
Qed.

Lemma lex_from_app (m : Mode) (s1 s2 : string) :
  lex_from m (s1 +:+ s2) =
  (snd (scan m s1) ++ lex_from (fst (scan m s1)) s2)%list.
Proof.
  revert m. induction s1 as [|c s1 IH]; intros m.
  - reflexivity.
  - rewrite append_cons. simpl.
    destruct (step m c) as [m' ts]. rewrite IH.
    destruct (scan m' s1) as [m'' ts']. simpl. now rewrite app_assoc.
Qed.

Lemma snoc_append (acc : string) (c : ascii) (t : string) :
  snoc acc c +:+ t = acc +:+ String c t.
Proof.
  unfold snoc. induction acc as [|a acc IH]; [reflexivity|].
  now rewrite !append_cons, IH.
Qed.

(** Inside a string literal a text free of quotes is taken as it is. *)
Lemma scan_plain (t : string) :
  forall acc, plain t = true ->
              scan (MStr acc) t = (MStr (acc +:+ t), []).
Proof.
  induction t as [|c t IH]; intros acc H.
  - now rewrite append_nil_r.
  - simpl in H. apply andb_prop in H as [H Ht]. apply andb_prop in H as [Hq _].
    apply negb_true_iff in Hq. simpl. rewrite Hq. rewrite (IH _ Ht).
    now rewrite snoc_append.
Qed.

(** Tokenizing [prefix +:+ rest]: the prefix is scanned by computation. *)
Ltac scan_prefix :=
  rewrite lex_from_app;
  match goal with
  | |- context [scan ?m ?s] =>
      let v := eval vm_compute in (scan m s) in
      replace (scan m s) with v by (vm_compute; reflexivity)
  end;
  cbn [fst snd].



Lemma append_assoc (a b c : string) : (a +:+ b) +:+ c = a +:+ (b +:+ c).
Proof.
  induction a as [|x a IH]; [reflexivity|]. now rewrite !append_cons, IH.
Qed.


Lemma lex_search_query (t : string) :
  plain t = true ->
  lex (Handler.search_query t) =
  [TWord "SELECT"; TStar; TWord "FROM"; TWord "records"; TWord "WHERE";
   TWord "name"; TWord "LIKE"; TStr ("%" +:+ t +:+ "%")].
Proof.
  intros H. unfold lex, Handler.search_query.
  scan_prefix. rewrite lex_from_app, (scan_plain _ _ H). cbn [fst snd app].
  cbn -[String.append]. unfold snoc. now rewrite append_assoc.
Qed.

Lemma has_nul_app (a b : string) :
  Runtime.has_nul (a +:+ b) = Runtime.has_nul a || Runtime.has_nul b.
Proof.
  induction a as [|c a IH]; [reflexivity|].
  rewrite append_cons. simpl. now rewrite IH, orb_assoc.
Qed.

Lemma plain_no_nul (t : string) :
  plain t = true -> Runtime.has_nul t = false.
Proof.
  induction t as [|c t IH]; [reflexivity|]. simpl. intros H.
  apply andb_prop in H as [H Ht]. apply andb_prop in H as [_ Hn].
  apply negb_true_iff in Hn. now rewrite Hn, (IH Ht).
Qed.

(* ===================================================================== *)
(** ** Running the statements of the handlers on the stores *)
(* ===================================================================== *)

Ltac vm_eval f :=
  match goal with
  | |- context [f ?x] =>
      let v := eval vm_compute in (f x) in
      replace (f x) with v by (vm_compute; reflexivity)
  end.

Ltac vm_eval2 f :=
  match goal with
  | |- context [f ?x ?y] =>
      let v := eval vm_compute in (f x y) in
      replace (f x y) with v by (vm_compute; reflexivity)
  end.

Lemma select_rows_map {A : Type} (f : A -> Row) (p : A -> bool)
      (cols : list string) (cond : option Cond) (l : list A) :
  (forall a, keeps cols cond (f a) = Some (p a)) ->
  select_rows cols cond (map f l) = Some (map f (List.filter p l)).
Proof.
  intros Hk. induction l as [|a l IH]; [reflexivity|].
  simpl. rewrite Hk, IH. now destruct (p a).
Qed.






Lemma keeps_search (pat : string) (r : Store.Rec) :
  pattern_fits pat = true ->
  keeps ["id"; "name"] (Some [[mkCmp (OCol "name") OpLike (OStr pat)]])
        (Store.rec_row r) =
  Some (like_match (c_string pat) (c_string (Store.r_name r))).
Proof.
  intros Hfit. unfold keeps, eval_cond, eval_and, eval_cmp.
  cbn [c_lhs c_rhs c_op eval_operand].
  vm_eval2 col_index. unfold Store.rec_row. cbn [nth_error eval_cmp_cells].
  rewrite Hfit.
  now destruct (like_match (c_string pat) (c_string (Store.r_name r))).
Qed.

Lemma c_string_no_nul (s : string) :
  Runtime.has_nul s = false -> c_string s = s.
Proof.
  induction s as [|c s IH]; [reflexivity|]. cbn. intros H.
  apply orb_false_elim in H as [Hc Hs]. now rewrite Hc, (IH Hs).
Qed.

Lemma compile_search_query (t : string) :
  plain t = true ->
  compile (lex (Handler.search_query t)) =
  COk (SSelect None "records"
         (Some [[mkCmp (OCol "name") OpLike (OStr ("%" +:+ t +:+ "%"))]])) [].
Proof.
  intros H. rewrite (lex_search_query _ H). vm_compute. reflexivity.
Qed.

Lemma run_search_query (us : list Store.User) (ks : list Store.Token)
      (rs : list Store.Rec) (t : string) :
  plain t = true ->
  pattern_fits ("%" +:+ t +:+ "%") = true ->
  run (Store.database us ks rs) (Handler.search_query t) =
  Rows (map Store.rec_row
            (List.filter
               (fun r => like_match ("%" +:+ t +:+ "%")
                                    (c_string (Store.r_name r))) rs))
       (Store.database us ks rs).
Proof.
  intros H Hfit. unfold run. rewrite (compile_search_query _ H).
  vm_eval too_deep. cbv beta iota.
  vm_eval2 resolves. cbv beta iota delta [negb].
  vm_eval too_wide. cbv beta iota.
  unfold exec_stmt.
  replace (find_table "records" (Store.database us ks rs))
    with (Some (Store.records_table rs)) by reflexivity.
  cbn [t_cols t_rows Store.records_table].
  unfold like_refused. cbn [c_lhs c_op c_rhs]. rewrite Hfit. cbn [negb andb].
  rewrite (select_rows_map _ _ _ _ _ (fun r => keeps_search _ r Hfit)).
  rewrite c_string_no_nul; [reflexivity|].
  now rewrite !has_nul_app, (plain_no_nul _ H).
Qed.

(** A pattern beyond the limit is refused at the first record, if there
    is one. *)
Lemma run_search_query_long (us : list Store.User) (ks : list Store.Token)
      (rs : list Store.Rec) (t : string) :
  plain t = true ->
  pattern_fits ("%" +:+ t +:+ "%") = false ->
  run (Store.database us ks rs) (Handler.search_query t) =
  match rs with
  | [] => Rows [] (Store.database us ks rs)
  | _ :: _ => Error ErrLikePattern
  end.
Proof.
  intros H Hfit. unfold run. rewrite (compile_search_query _ H).
  vm_eval too_deep. cbv beta iota.
  vm_eval2 resolves. cbv beta iota delta [negb].
  vm_eval too_wide. cbv beta iota.
  unfold exec_stmt.
  replace (find_table "records" (Store.database us ks rs))
    with (Some (Store.records_table rs)) by reflexivity.
  cbn [t_cols t_rows Store.records_table].
  unfold like_refused. cbn [c_lhs c_op c_rhs]. rewrite Hfit.
  rewrite append_cons. cbn [negb andb starts_with_wildcard].
  replace ((code "%" =? 37)%N || (code "%" =? 95)%N) with true by reflexivity.
  now destruct rs.
Qed.

(** *** What [execute] does once the engine's answer is known *)

Lemma cursor_execute_rows (w : Runtime.World) (sql : string)
      (rows : list Row) (db' : Database) :
  Runtime.has_nul sql = false ->
  run (Runtime.w_db w) sql = Rows rows db' ->
  Runtime.cursor_execute sql w =
  (Runtime.Returned rows,
   Runtime.set_db
     (Runtime.set_trace w (Runtime.w_trace w ++ [Runtime.CursorExecute sql []]))
     db').
Proof.
  intros Hn Hr. unfold Runtime.cursor_execute, Runtime.bind, Runtime.call.
  rewrite Hn. cbn [Runtime.w_db Runtime.set_trace]. now rewrite Hr.
Qed.


Import Runtime.

(** Connect, execute, close: the three steps every database handler
    shares, once the engine's answer to the statement is known. *)
Lemma query_steps {A : Type} (w : World) (sql : string) (rows : list Row)
      (db' : Database) (k : list Row -> M A) :
  has_nul sql = false ->
  run (w_db w) sql = Rows rows db' ->
  (Handler.get_db_connection ;;;
   rows <- cursor_execute sql ;;
   conn_close ;;;
   k rows) w = k rows (Handler.after_query w sql db').
Proof.
  intros Hn Hr. unfold bind at 1.
  unfold Handler.get_db_connection, bind at 1, gets, sqlite3_connect, call.
  cbv beta iota. unfold bind at 1.
  rewrite (cursor_execute_rows _ sql rows db' Hn) by exact Hr.
  unfold bind at 1, conn_close, call. cbv beta iota.
  f_equal. destruct w. unfold Handler.after_query, set_db, set_trace.
  cbn. now rewrite <- !app_assoc.
Qed.

(** Connect, execute, close and a pure answer to the rows, whatever the
    engine answers. *)
Lemma query_outcome {A : Type} (f : list Row -> A) (w : World) (sql : string)
      (k : list Row -> M A) :
  (forall rows db', run (w_db w) sql = Rows rows db' ->
                    forall w', k rows w' = (Returned (f rows), w')) ->
  (Handler.get_db_connection ;;;
   rows <- cursor_execute sql ;;
   conn_close ;;;
   k rows) w = query_result f w sql.
Proof.
  intros Hk. unfold query_result, bind at 1.
  unfold Handler.get_db_connection, bind at 1, gets, sqlite3_connect, call.
  cbv beta iota. unfold bind at 1.
  unfold cursor_execute, bind at 1, call, raise. cbv beta iota.
  assert (Hopen :
    set_trace
      (set_trace w (w_trace w ++ [SqliteConnect (DATABASE_PATH (w_globals w))]))
      (w_trace
         (set_trace w
            (w_trace w ++ [SqliteConnect (DATABASE_PATH (w_globals w))])) ++
       [CursorExecute sql []]) = left_open w sql).
  { unfold left_open, set_trace. cbn. now rewrite <- app_assoc. }
  rewrite Hopen.
  destruct (has_nul sql); [reflexivity|].
  change (w_db (left_open w sql)) with (w_db w).
  destruct (run (w_db w) sql) as [rows db'|[]|] eqn:Hr; try reflexivity.
  unfold bind at 1, conn_close, call. cbv beta iota.
  rewrite (Hk rows db' eq_refl). f_equal.
  unfold Handler.after_query, left_open, set_db, set_trace. cbn.
  now rewrite <- app_assoc.
Qed.

Lemma search_database_run (w : World) (term : string) :
  Handler.search_database term w =
  query_result fetchall w (Handler.search_query term).
Proof.
  unfold Handler.search_database. cbv zeta.
  now apply (query_outcome fetchall w _ (fun rows => ret (fetchall rows))).
Qed.

(* ===================================================================== *)
(** ** The authorizer: [validate_admin_access] *)
(* ===================================================================== *)




(* ===================================================================== *)
(** ** The authenticator: [authenticate_user] *)
(* ===================================================================== *)





(* ===================================================================== *)
(** ** The query builder: [search_database] *)
(* ===================================================================== *)

(** *** LIKE between two [%] is containment *)

Lemma like_match_percent (p s : string) :
  like_match (String "%" p) s =
  like_match p s ||
  match s with
  | EmptyString => false
  | String _ s' => like_match (String "%" p) s'
  end.
Proof. destruct s; reflexivity. Qed.

Lemma like_match_all (s : string) : like_match "%" s = true.
Proof.
  induction s as [|c s IH]; [reflexivity|].
  rewrite like_match_percent, IH. apply orb_true_r.
Qed.

Lemma like_match_prefix (t : string) :
  forall s, wildcard_free t = true ->
            like_match (t +:+ "%") s = prefix_ci t s.
Proof.
  induction t as [|c t IH]; intros s H.
  - apply like_match_all.
  - cbn [wildcard_free] in H. apply andb_prop in H as [H Ht].
    apply andb_prop in H as [H1 H2].
    apply negb_true_iff in H1, H2.
    rewrite append_cons. cbn [like_match prefix_ci]. rewrite H1, H2.
    destruct s as [|d s]; [reflexivity|]. now rewrite (IH _ Ht).
Qed.

(** For a term without [%] and [_], the pattern [%term%] holds of the
    values the term occurs in, up to ASCII case. *)
Lemma like_match_contains (t : string) :
  wildcard_free t = true ->
  forall s, like_match ("%" +:+ t +:+ "%") s = contains_ci t s.
Proof.
  intros H s. rewrite append_cons, append_nil_l.
  induction s as [|d s IH]; rewrite like_match_percent;
    rewrite (like_match_prefix _ _ H); cbn [contains_ci]; [reflexivity|].
  now rewrite IH.
Qed.

Lemma cursor_execute_trace (sql : string) (w : World) :
  w_trace (snd (cursor_execute sql w)) =
  (w_trace w ++ [CursorExecute sql []])%list.
Proof.
  unfold cursor_execute, bind, call, raise. cbv beta iota.
  destruct (has_nul sql); [reflexivity|]. cbn [w_db set_trace].
  destruct (run (w_db w) sql) as [rows db'|[]|]; reflexivity.
Qed.

(** Whatever the engine answers, a database handler has connected and
    has passed its statement, and nothing else, to [execute]. *)
Lemma query_trace {A : Type} (w : World) (sql : string) (k : list Row -> M A) :
  (forall rows w', exists tail,
        w_trace (snd (k rows w')) = (w_trace w' ++ tail)%list) ->
  exists tail,
    w_trace (snd ((Handler.get_db_connection ;;;
                   rows <- cursor_execute sql ;; k rows) w)) =
    (w_trace w ++ SqliteConnect (DATABASE_PATH (w_globals w))
                 :: CursorExecute sql [] :: tail)%list.
Proof.
  intros Hk. unfold bind at 1.
  unfold Handler.get_db_connection, bind at 1, gets, sqlite3_connect, call.
  cbv beta iota. unfold bind at 1.
  set (w1 := set_trace w _).
  pose proof (cursor_execute_trace sql w1) as Ht.
  destruct (cursor_execute sql w1) as [[rows|e|] w2]; cbn [snd] in Ht |- *.
  - destruct (Hk rows w2) as [tail Hkt]. exists tail.
    rewrite Hkt, Ht. subst w1. cbn [w_trace set_trace].
    now rewrite <- !app_assoc.
  - exists []. rewrite Ht. subst w1. cbn [w_trace set_trace].
    now rewrite <- !app_assoc.
  - exists []. rewrite Ht. subst w1. cbn [w_trace set_trace].
    now rewrite <- !app_assoc.
Qed.

(** The pattern [%term%] is two bytes longer than the term. *)
Lemma utf8_length_app (a b : string) :
  utf8_length (a +:+ b) = (utf8_length a + utf8_length b)%N.
Proof.
  induction a as [|c a IH]; [reflexivity|].
  rewrite append_cons. cbn [utf8_length]. rewrite IH. lia.
Qed.

Lemma pattern_fits_search (term : string) :
  pattern_fits ("%" +:+ term +:+ "%") = (utf8_length term <=? 49998)%N.
Proof.
  unfold pattern_fits, max_like_pattern. rewrite !utf8_length_app.
  change (utf8_length "%") with 1%N.
  destruct (N.leb_spec (utf8_length term) 49998);
    [apply N.leb_le|apply N.leb_gt]; lia.
Qed.

(** C3, as the specification states it, fails on the code. The store
    holds a record named [O'Brien]; searching for [O'Brien] raises the
    engine's [OperationalError] instead of returning that record,
    because the term is part of the statement text: [execute] receives
    the text with the term inside and an empty parameter sequence. A
    term that closes the literal changes the structure of the
    statement, from one LIKE test to a disjunction of two tests, and
    the search returns every record although no name matches the term's
    pattern. *)
Lemma search_database_interpolates :
  raises Py.OperationalError
    (fst (Handler.search_database "O'Brien" (boot demo_db)))
  /\ w_trace (snd (Handler.search_database "O'Brien" (boot demo_db))) =
     [SqliteConnect "/var/data/app.db";
      CursorExecute "SELECT * FROM records WHERE name LIKE '%O'Brien%'" []]
  /\ compile (lex (Handler.search_query "Bob")) =
     COk (SSelect None "records"
            (Some [[mkCmp (OCol "name") OpLike (OStr "%Bob%")]])) []
  /\ compile (lex (Handler.search_query "' OR 'a'='a")) =
     COk (SSelect None "records"
            (Some [[mkCmp (OCol "name") OpLike (OStr "%")];
                   [mkCmp (OStr "a") OpEq (OStr "a%")]])) []
  /\ like_match "%' OR 'a'='a%" "O'Brien" = false
  /\ like_match "%' OR 'a'='a%" "Bob" = false
  /\ fst (Handler.search_database "' OR 'a'='a" (boot demo_db)) =
     Returned (Py.VList [Py.VTuple [Py.VInt 1; Py.VStr "O'Brien"];
                         Py.VTuple [Py.VInt 2; Py.VStr "Bob"]]).
Proof. vm_compute. repeat split; reflexivity. Qed.

(** C3, amended. For every search term, [search_database] passes to
    [execute] the statement text with the term interpolated between
    [LIKE '%] and [%'], and no parameter. For every term free of quote
    and NUL characters the statement has one structure, a single LIKE
    test on [name] whose pattern literal is [%term%]. When the term is
    at most 49,998 bytes long in UTF-8, so that the pattern is within
    the engine's limit of 50,000 bytes, the search returns exactly the
    stored records whose name, read up to its first NUL if it has one,
    matches that pattern (a [%] or [_] of the term is a wildcard,
    letters match up to ASCII case); it is one connect, one execute, one
    close, and leaves the database as it was. When the term is longer,
    and the statement still within the engine's limit of 1,000,000,000
    bytes, the engine refuses the pattern at the first record: the search
    raises [OperationalError] after connect and execute, without a
    close, unless the record store is empty, in which case it returns
    the empty list. For a term without [%] and [_] the pattern matches
    exactly the names the term occurs in, up to ASCII case. *)
Theorem search_database_spec :
  (forall (w : World) (term : string),
      exists tail,
        w_trace (snd (Handler.search_database term w)) =
        (w_trace w ++ SqliteConnect (DATABASE_PATH (w_globals w))
           :: CursorExecute
                ("SELECT * FROM records WHERE name LIKE '%" +:+ term +:+ "%'")
                []
           :: tail)%list)
  /\ (forall term : string,
         plain term = true ->
         compile (lex (Handler.search_query term)) =
           COk (SSelect None "records"
                  (Some [[mkCmp (OCol "name") OpLike
                                (OStr ("%" +:+ term +:+ "%"))]])) [])
  /\ (forall (w : World) (us : list Store.User) (ks : list Store.Token)
             (rs : list Store.Rec) (term : string),
         w_db w = Store.database us ks rs ->
         plain term = true ->
         (utf8_length term <= 49998)%N ->
         fst (Handler.search_database term w) =
            Returned
              (Py.VList
                 (map (fun r => Py.VTuple [Py.VInt (Store.r_id r);
                                           Py.VStr (Store.r_name r)])
                      (List.filter
                         (fun r => like_match ("%" +:+ term +:+ "%")
                                              (c_string (Store.r_name r)))
                         rs)))
         /\ w_trace (snd (Handler.search_database term w)) =
            (w_trace w ++
             [SqliteConnect (DATABASE_PATH (w_globals w));
              CursorExecute (Handler.search_query term) [];
              ConnectionClose])%list
         /\ w_db (snd (Handler.search_database term w)) = w_db w)
  /\ (forall (w : World) (us : list Store.User) (ks : list Store.Token)
             (rs : list Store.Rec) (term : string),
         w_db w = Store.database us ks rs ->
         plain term = true ->
         (49998 < utf8_length term)%N ->
         sql_fits (Handler.search_query term) = true ->
         match rs with
         | [] =>
             fst (Handler.search_database term w) = Returned (Py.VList [])
             /\ w_trace (snd (Handler.search_database term w)) =
                (w_trace w ++
                 [SqliteConnect (DATABASE_PATH (w_globals w));
                  CursorExecute (Handler.search_query term) [];
                  ConnectionClose])%list
         | _ :: _ =>
             raises Py.OperationalError
               (fst (Handler.search_database term w))
             /\ w_trace (snd (Handler.search_database term w)) =
                (w_trace w ++
                 [SqliteConnect (DATABASE_PATH (w_globals w));
                  CursorExecute (Handler.search_query term) []])%list
         end
         /\ w_db (snd (Handler.search_database term w)) = w_db w)
  /\ (forall term name : string,
         wildcard_free term = true ->
         like_match ("%" +:+ term +:+ "%") name = contains_ci term name).
Proof.
  split; [|split; [|split; [|split]]];
    [| exact compile_search_query | | |
     intros term name H; now apply like_match_contains].
  - intros w term. unfold Handler.search_database. cbv zeta.
    apply (query_trace w (Handler.search_query term)
             (fun rows => conn_close ;;; ret (fetchall rows))).
    intros rows w'. exists [ConnectionClose]. reflexivity.
  - intros w us ks rs term Hdb Hp Hlen.
    assert (Hfit : pattern_fits ("%" +:+ term +:+ "%") = true)
      by (rewrite pattern_fits_search; now apply N.leb_le).
    unfold Handler.search_database. cbv zeta.
    erewrite (query_steps w _ _ _ (fun rows => ret (fetchall rows)));
      [ | unfold Handler.search_query;
          rewrite !has_nul_app, (plain_no_nul _ Hp); reflexivity
        | rewrite Hdb; apply run_search_query; [exact Hp|exact Hfit] ].
    cbn. rewrite Hdb. repeat split.
    unfold fetchall. now rewrite map_map.
  - intros w us ks rs term Hdb Hp Hlen _.
    assert (Hfit : pattern_fits ("%" +:+ term +:+ "%") = false)
      by (rewrite pattern_fits_search; now apply N.leb_gt).
    assert (Hn : has_nul (Handler.search_query term) = false)
      by (unfold Handler.search_query;
          rewrite !has_nul_app, (plain_no_nul _ Hp); reflexivity).
    pose proof (run_search_query_long us ks rs term Hp Hfit) as Hr.
    rewrite <- Hdb in Hr.
    destruct rs as [|r rs].
    + unfold Handler.search_database. cbv zeta.
      erewrite (query_steps w _ _ _ (fun rows => ret (fetchall rows)));
        [ | exact Hn | exact Hr ].
      cbn. now rewrite Hdb.
    + rewrite search_database_run. unfold query_result.
      rewrite Hn, Hr. now cbn.
Qed.

Lemma search_database_spec_witness :
  (fst (Handler.search_database "o_b" (boot demo_db)) =
     Returned (Py.VList [Py.VTuple [Py.VInt 1; Py.VStr "O'Brien"]])
   /\ w_trace (snd (Handler.search_database "o_b" (boot demo_db))) =
      [SqliteConnect "/var/data/app.db";
       CursorExecute "SELECT * FROM records WHERE name LIKE '%o_b%'" [];
       ConnectionClose]
   /\ w_db (snd (Handler.search_database "o_b" (boot demo_db))) = demo_db)
  /\ ((raises Py.OperationalError
         (fst (Handler.search_database long_term (boot demo_db)))
       /\ w_trace (snd (Handler.search_database long_term (boot demo_db))) =
          [SqliteConnect "/var/data/app.db";
           CursorExecute (Handler.search_query long_term) []])
      /\ w_db (snd (Handler.search_database long_term (boot demo_db))) =
         demo_db).
Proof.
  assert (Hshort : (utf8_length "o_b" <= 49998)%N) by (vm_compute; discriminate).
  assert (Hplain : plain long_term = true) by (vm_compute; reflexivity).
  assert (Hlong : (49998 < utf8_length long_term)%N)
    by (vm_compute; reflexivity).
  assert (Hsql : sql_fits (Handler.search_query long_term) = true)
    by (vm_compute; reflexivity).
  split.
  - exact (proj1 (proj2 (proj2 search_database_spec)) (boot demo_db) _ _ _
             "o_b" eq_refl eq_refl Hshort).
  - exact (proj1 (proj2 (proj2 (proj2 search_database_spec))) (boot demo_db)
             _ _ _ long_term eq_refl Hplain Hlong Hsql).
Defined.

(* ===================================================================== *)
(** ** The error response: [handle_error] and [get_config] *)
(* ===================================================================== *)

(** C4, as the specification states it, fails on the code. The body of
    the error response carries the traceback text and, under [config],
    the API key, the database path, the debug flag and the secret. Two
    runs that differ only in the API key give different bodies. *)
Lemma handle_error_leaks :
  option_map (fun r => Py.field "config" (r_json r))
    (match fst (Handler.handle_error (Py.mkExn Py.OSError "disk full")
                  (boot demo_db)) with
     | Returned r => Some r
     | _ => None
     end) =
  Some (Some (Py.VDict [("api_key", Py.VStr "sk-live-abc123xyz789secret");
                        ("database", Py.VStr "/var/data/app.db");
                        ("debug", Py.VBool true);
                        ("secret", Py.VStr "super-secret-value-456")]))
  /\ option_map (fun r => Py.field "traceback" (r_json r))
       (match fst (Handler.handle_error (Py.mkExn Py.OSError "disk full")
                     (boot demo_db)) with
        | Returned r => Some r
        | _ => None
        end) =
     Some (Some (Py.VStr ("NoneType: None" +:+ nl)))
  /\ fst (Handler.handle_error (Py.mkExn Py.OSError "disk full")
            (boot demo_db)) <>
     fst (Handler.handle_error (Py.mkExn Py.OSError "disk full")
            (set_globals (boot demo_db)
               (mkGlobals "sk-live-another-key" "/var/data/app.db" true))).
Proof.
  split; [reflexivity|]. split; [reflexivity|]. vm_compute. discriminate.
Qed.

(** C4, amended. For every error value and every world, [handle_error]
    returns a JSON response whose body has exactly the fields [error],
    the text of the error, [traceback], the text of the current
    traceback, and [config], the dict of the API key, the database path,
    the debug flag and the literal secret; it changes nothing. Two runs
    have the same body exactly when they have the same error text, the
    same traceback text and the same configuration globals: the body
    determines the configuration. *)
Theorem handle_error_spec :
  (forall (w : World) (error : Py.Exn),
      Handler.handle_error error w =
      (Returned
         (jsonify
            (Py.VDict
               [("error", Py.VStr (Py.exn_msg error));
                ("traceback", Py.VStr (w_format_exc w));
                ("config",
                 Py.VDict
                   [("api_key", Py.VStr (API_KEY (w_globals w)));
                    ("database", Py.VStr (DATABASE_PATH (w_globals w)));
                    ("debug", Py.VBool (DEBUG_MODE (w_globals w)));
                    ("secret", Py.VStr "super-secret-value-456")])])),
       w))
  /\ (forall (w1 w2 : World) (e1 e2 : Py.Exn),
         fst (Handler.handle_error e1 w1) = fst (Handler.handle_error e2 w2)
         <-> Py.exn_msg e1 = Py.exn_msg e2
             /\ w_format_exc w1 = w_format_exc w2
             /\ w_globals w1 = w_globals w2).
Proof.
  split; [reflexivity|].
  intros w1 w2 e1 e2.
  unfold Handler.handle_error, Handler.get_config, bind, gets, ret, Py.str_exn.
  cbn. split.
  - intros H. injection H as He Ht Hk Hd Hg.
    repeat split; try assumption.
    destruct (w_globals w1), (w_globals w2). cbn in *. congruence.
  - intros (He & Ht & Hg). now rewrite He, Ht, Hg.
Qed.

(* ===================================================================== *)
(** ** Outbound fetches: [fetch_remote_config] and [handle_webhook] *)
(* ===================================================================== *)

(** C7, as the specification states it, fails on the code: the GET that
    [fetch_remote_config] issues has certificate verification switched
    off. *)
Lemma fetch_remote_config_unverified :
  w_trace (snd (Handler.fetch_remote_config
                  (Py.VStr "https://config.example.org/app.yaml")
                  (boot demo_db))) =
  [RequestsGet (Py.VStr "https://config.example.org/app.yaml") false].
Proof. reflexivity. Qed.

(** C7, amended. For every URL and every world, [fetch_remote_config]
    issues exactly one outbound call, a GET of that URL with certificate
    verification disabled, and returns what the YAML loader makes of the
    reply (or raises what the GET or the loader raises). *)
Theorem fetch_remote_config_spec (w : World) (url : Py.Val) :
  w_trace (snd (Handler.fetch_remote_config url w)) =
    (w_trace w ++ [RequestsGet url false])%list
  /\ fst (Handler.fetch_remote_config url w) =
     match w_net w url false with
     | NetText text =>
         match w_yaml w text with
         | YamlValue v => Returned v
         | YamlFail e => Raised e
         end
     | NetFail e => Raised e
     end.
Proof.
  unfold Handler.fetch_remote_config, requests_get, yaml_load, bind, call,
    gets, ret, raise.
  cbn. destruct (w_net w url false) as [text|e]; cbn; [|now split].
  destruct (w_yaml w text); now split.
Qed.

(** C10. A payload without a [callback] key, or with a falsy value
    under it, makes [handle_webhook] return ["No callback"] and leave
    the world, its trace of calls included, as it was. A payload with a
    truthy value under [callback] makes it issue exactly one outbound
    call, a GET of that very value, and return the text of the reply
    (or raise what the GET raises). *)
Theorem handle_webhook_spec (w : World) (payload : gmap string Py.Val) :
  match payload !! "callback" with
  | None =>
      Handler.handle_webhook payload w = (Returned (Py.VStr "No callback"), w)
  | Some url =>
      if Py.truthy url then
        snd (Handler.handle_webhook payload w) =
          set_trace w (w_trace w ++ [RequestsGet url true])
        /\ fst (Handler.handle_webhook payload w) =
           match w_net w url true with
           | NetText text => Returned (Py.VStr text)
           | NetFail e => Raised e
           end
      else
        Handler.handle_webhook payload w =
          (Returned (Py.VStr "No callback"), w)
  end.
Proof.
  unfold Handler.handle_webhook.
  destruct (payload !! "callback") as [url|]; cbn; [|reflexivity].
  destruct (Py.truthy url); [|reflexivity].
  unfold requests_get, bind, call, gets, ret, raise. cbn.
  destruct (w_net w url true); now split.
Qed.

(* ===================================================================== *)
(** ** External processes: [send_email] and [run_system_command] *)
(* ===================================================================== *)

(** C8, as the specification states it, fails on the code. [send_email]
    hands one command line, built from the caller's strings, to the
    shell: the first argument of [subprocess.call] is a string, not a
    list of arguments, and [shell] is on. A recipient that carries a
    second command puts it on the line. [run_system_command] hands its
    argument to the shell as it is. *)
Lemma send_email_builds_shell_line :
  w_trace (snd (Handler.send_email "a@example.org; rm -rf /" "hi" "x"
                  (boot demo_db))) =
  [SubprocessCall
     (CmdLine ("echo " +:+ Handler.dq +:+ "x" +:+ Handler.dq +:+ " | mail -s "
               +:+ Handler.dq +:+ "hi" +:+ Handler.dq
               +:+ " a@example.org; rm -rf /"))
     true]
  /\ w_trace (snd (Handler.run_system_command (CmdLine "cat /etc/passwd")
                     (boot demo_db))) =
     [SubprocessCall (CmdLine "cat /etc/passwd") true].
Proof. split; reflexivity. Qed.

(** C8, amended. For every recipient, subject and body, [send_email]
    makes exactly one call, [subprocess.call] with the shell on and, as
    its one command line, [echo "body" | mail -s "subject" recipient]
    with the three strings interpolated unchanged; it returns [True]
    whatever the exit status, and raises what the call raises.
    [run_system_command] passes its argument unchanged to
    [subprocess.call] with the shell on and returns the exit status.
    [create_backup] passes to [os.system] the command line
    [cp DATABASE_PATH /backups/name.db] with the name interpolated
    unchanged. *)
Theorem send_email_spec (w : World) :
  (forall to_address subject body : string,
      Handler.send_email to_address subject body w =
      (match w_shell w (CmdLine (Handler.mail_command to_address subject body))
       with
       | ExitStatus _ => Returned (Py.VBool true)
       | ShellFail e => Raised e
       end,
       set_trace w
         (w_trace w ++
          [SubprocessCall
             (CmdLine ("echo " +:+ Handler.dq +:+ body +:+ Handler.dq
                       +:+ " | mail -s " +:+ Handler.dq +:+ subject
                       +:+ Handler.dq +:+ " " +:+ to_address))
             true])))
  /\ (forall command : CmdArgs,
         Handler.run_system_command command w =
         (match w_shell w command with
          | ExitStatus status => Returned (Py.VInt status)
          | ShellFail e => Raised e
          end,
          set_trace w (w_trace w ++ [SubprocessCall command true])))
  /\ (forall backup_name : string,
         exists outcome,
           Handler.create_backup backup_name w =
           (outcome,
            set_trace w
              (w_trace w ++
               [OsSystem ("cp " +:+ DATABASE_PATH (w_globals w)
                          +:+ " /backups/" +:+ backup_name +:+ ".db")]))).
Proof.
  repeat split.
  - intros to_address subject body.
    unfold Handler.send_email, subprocess_call, bind, call, gets. cbn.
    now destruct (w_shell w _).
  - intros command.
    unfold Handler.run_system_command, subprocess_call, bind, call, gets. cbn.
    now destruct (w_shell w command).
  - intros backup_name.
    unfold Handler.create_backup, os_system, bind, call, gets. cbn.
    destruct (w_shell w _); eexists; reflexivity.
Qed.

(* ===================================================================== *)
(** ** File upload: [upload_file] *)
(* ===================================================================== *)

Lemma components_uploads (filename : string) :
  Path.components ("/uploads/" +:+ filename) =
  "" :: "uploads" :: Path.components filename.
Proof. reflexivity. Qed.

Lemma walk_keeps_root (comps : list string) :
  forall stack : list string,
    existsb (fun comp => String.eqb comp "..") comps = false ->
    exists stack',
      fold_left Path.walk comps (stack ++ ["uploads"])%list =
      (stack' ++ ["uploads"])%list.
Proof.
  induction comps as [|comp comps IH]; intros stack H.
  - now exists stack.
  - cbn [existsb] in H. apply orb_false_elim in H as [Hc Hr].
    cbn [fold_left]. unfold Path.walk at 2. rewrite Hc.
    destruct (String.eqb comp "" || String.eqb comp ".").
    + now apply IH.
    + apply (IH (comp :: stack) Hr).
Qed.

(** C9, as the specification states it, fails on the code. The name
    handed to [open] is the caller's file name behind [/uploads/],
    unchanged: with [../etc/passwd] the path resolves to [/etc/passwd],
    outside the upload directory, and the content is stored there. The
    name is not collision-resistant either: a second upload under the
    same name replaces the first. *)
Lemma upload_file_escapes :
  w_trace (snd (Handler.upload_file "x" "../etc/passwd" (boot demo_db))) =
    [OpenFile "/uploads/../etc/passwd" "wb";
     FileWrite "/uploads/../etc/passwd" "x"]
  /\ Path.resolve "/uploads/../etc/passwd" = ["etc"; "passwd"]
  /\ Path.under ["uploads"] (Path.resolve "/uploads/../etc/passwd") = false
  /\ w_files (snd (Handler.upload_file "x" "../etc/passwd" (boot demo_db)))
       !! ["etc"; "passwd"] = Some "x"
  /\ w_files
       (snd (Handler.upload_file "second" "a.txt"
               (snd (Handler.upload_file "first" "a.txt" (boot demo_db)))))
       !! ["uploads"; "a.txt"] = Some "second".
Proof. vm_compute. repeat split; reflexivity. Qed.

(** C9, amended. For every content and file name, [upload_file] opens
    for writing the path made of [/uploads/] and the caller's file name,
    unchanged; when the path can be opened it stores the content in the
    file that path resolves to and returns [{success: True, path}] with
    that path. The resolved path lies in the upload directory whenever
    no component of the file name is [..]. *)
Theorem upload_file_spec :
  (forall (w : World) (file_content filename : string),
      exists tail,
        w_trace (snd (Handler.upload_file file_content filename w)) =
        (w_trace w ++ OpenFile ("/uploads/" +:+ filename) "wb" :: tail)%list)
  /\ (forall (w : World) (file_content filename : string),
         w_open_error w ("/uploads/" +:+ filename) = None ->
         fst (Handler.upload_file file_content filename w) =
           Returned (Py.VDict [("success", Py.VBool true);
                               ("path", Py.VStr ("/uploads/" +:+ filename))])
         /\ w_trace (snd (Handler.upload_file file_content filename w)) =
            (w_trace w ++
             [OpenFile ("/uploads/" +:+ filename) "wb";
              FileWrite ("/uploads/" +:+ filename) file_content])%list
         /\ w_files (snd (Handler.upload_file file_content filename w)) =
            <[Path.resolve ("/uploads/" +:+ filename) := file_content]>
              (w_files w))
  /\ (forall filename : string,
         Path.has_parent_step filename = false ->
         Path.under ["uploads"] (Path.resolve ("/uploads/" +:+ filename)) =
         true).
Proof.
  split; [|split].
  - intros w file_content filename.
    unfold Handler.upload_file, open_write, bind, call, gets, ret, raise. cbn.
    destruct (w_open_error w _); cbn.
    + now exists [].
    + eexists. now rewrite <- app_assoc.
  - intros w file_content filename Hopen.
    unfold Handler.upload_file, open_write, bind, call, gets, ret. cbn.
    rewrite Hopen. cbn. now rewrite <- app_assoc.
  - intros filename H. unfold Path.resolve. rewrite components_uploads.
    cbn [fold_left]. change (Path.walk (Path.walk [] "") "uploads")
      with ([] ++ ["uploads"])%list.
    destruct (walk_keeps_root (Path.components filename) [] H) as [st Hst].
    rewrite Hst, rev_app_distr. reflexivity.
Qed.

Lemma upload_file_spec_witness :
  (fst (Handler.upload_file "png" "img/a.png" (boot demo_db)) =
     Returned (Py.VDict [("success", Py.VBool true);
                         ("path", Py.VStr "/uploads/img/a.png")])
   /\ w_trace (snd (Handler.upload_file "png" "img/a.png" (boot demo_db))) =
      [OpenFile "/uploads/img/a.png" "wb";
       FileWrite "/uploads/img/a.png" "png"]
   /\ w_files (snd (Handler.upload_file "png" "img/a.png" (boot demo_db))) =
      <[Path.resolve "/uploads/img/a.png" := "png"]> ∅)
  /\ Path.under ["uploads"] (Path.resolve "/uploads/img/a.png") = true.
Proof.
  split.
  - exact (proj1 (proj2 upload_file_spec) (boot demo_db) "png" "img/a.png"
             eq_refl).
  - exact (proj2 (proj2 upload_file_spec) "img/a.png" eq_refl).
Defined.

(* ===================================================================== *)
(** ** Export: [export_data] *)
(* ===================================================================== *)







(* ===================================================================== *)
(** ** The profile projector: [get_user_profile] *)
(* ===================================================================== *)

(** *** The decimal text of an id is read back as that id *)

Ltac step_digit :=
  match goal with
  | |- context [step (MNum ?a) ?c] =>
      let v := eval vm_compute in (digit_val c) in
      change (step (MNum a) c) with (MNum (10 * a + v), @nil Token)
  | |- context [step MDefault ?c] =>
      let v := eval vm_compute in (digit_val c) in
      change (step MDefault c) with (MNum v, @nil Token)
  end.

Lemma scan_num (d : Decimal.uint) :
  forall acc : Z,
    scan (MNum acc) (NilEmpty.string_of_uint d) = (MNum (uint_value d acc), []).
Proof.
  induction d; intros acc; cbn [NilEmpty.string_of_uint uint_value];
    [reflexivity|..];
    cbn [scan]; step_digit; cbv beta iota; now rewrite IHd.
Qed.

Lemma scan_first (d : Decimal.uint) :
  d <> Decimal.Nil ->
  scan MDefault (NilEmpty.string_of_uint d) = (MNum (uint_value d 0), []).
Proof.
  destruct d; intros Hd; [congruence|..];
    cbn [NilEmpty.string_of_uint uint_value scan]; step_digit;
    cbv beta iota; now rewrite scan_num.
Qed.

Lemma uint_value_acc (d : Decimal.uint) :
  forall acc : positive,
    Z.pos (Pos.of_uint_acc d acc) = uint_value d (Z.pos acc).
Proof.
  induction d; intros acc; cbn [Pos.of_uint_acc uint_value];
    [reflexivity|..]; rewrite IHd; f_equal; lia.
Qed.

Lemma uint_value_of_uint (d : Decimal.uint) :
  Z.of_N (Pos.of_uint d) = uint_value d 0.
Proof.
  induction d; cbn [Pos.of_uint uint_value]; [reflexivity|exact IHd|..];
    cbn [Z.of_N]; now rewrite uint_value_acc.
Qed.

Lemma lex_from_flush (m : Mode) (s : string) :
  lex_from m s = (snd (scan m s) ++ flush (fst (scan m s)))%list.
Proof.
  rewrite <- (append_nil_r s) at 1. now rewrite lex_from_app.
Qed.

Lemma lex_decimal (z : Z) :
  0 <= z <= max_int -> lex_from MDefault (Py.decimal z) = [TInt z].
Proof.
  intros [Hz Hm]. destruct z as [|p|p]; [reflexivity| |lia].
  unfold Py.decimal. cbn [Z.to_int NilZero.string_of_int].
  pose proof (DecimalPos.Unsigned.to_uint_nonnil p) as Hn.
  assert (Hv : uint_value (Pos.to_uint p) 0 = Z.pos p)
    by now rewrite <- uint_value_of_uint, DecimalPos.Unsigned.of_to.
  unfold NilZero.string_of_uint.
  destruct (Pos.to_uint p) eqn:E; [congruence|..];
    rewrite <- E in *; rewrite lex_from_flush, (scan_first _ Hn), Hv;
    cbn [fst snd flush app]; unfold num_token;
    now apply Z.leb_le in Hm as ->.
Qed.

Lemma lex_profile_query (z : Z) :
  0 <= z <= max_int ->
  lex (Handler.profile_query (Py.decimal z)) =
  [TWord "SELECT"; TWord "id"; TComma; TWord "username"; TComma;
   TWord "email"; TComma; TWord "password"; TComma; TWord "ssn"; TComma;
   TWord "credit_card"; TWord "FROM"; TWord "users"; TWord "WHERE";
   TWord "id"; TEq; TInt z].
Proof.
  intros Hz. unfold lex, Handler.profile_query.
  scan_prefix. now rewrite (lex_decimal _ Hz).
Qed.

(** *** The statement on the user store *)

Lemma keeps_profile (z : Z) (x : Store.User) :
  keeps ["id"; "username"; "email"; "password"; "ssn"; "credit_card"]
        (Some [[mkCmp (OCol "id") OpEq (OInt z)]])
        (Store.user_row x) = Some (Store.u_id x =? z).
Proof.
  unfold keeps, eval_cond, eval_and, eval_cmp.
  cbn [c_lhs c_rhs c_op eval_operand].
  vm_eval2 col_index. unfold Store.user_row. cbn [nth_error eval_cmp_cells].
  now destruct (Store.u_id x =? z).
Qed.

Lemma project_user_rows (us : list Store.User) :
  project_rows [0; 1; 2; 3; 4; 5]%nat (map Store.user_row us) =
  Some (map Store.user_row us).
Proof.
  induction us as [|x us IH]; [reflexivity|].
  cbn [map project_rows]. now rewrite IH.
Qed.

Lemma run_profile_query (us : list Store.User) (ks : list Store.Token)
      (rs : list Store.Rec) (z : Z) :
  0 <= z <= max_int ->
  run (Store.database us ks rs) (Handler.profile_query (Py.decimal z)) =
  Rows (map Store.user_row (List.filter (fun x => Store.u_id x =? z) us))
       (Store.database us ks rs).
Proof.
  intros Hz. unfold run. rewrite (lex_profile_query _ Hz).
  vm_eval compile. cbv beta iota.
  vm_eval too_deep. cbv beta iota.
  vm_eval2 resolves. cbv beta iota delta [negb].
  vm_eval too_wide. cbv beta iota.
  unfold exec_stmt.
  replace (find_table "users" (Store.database us ks rs))
    with (Some (Store.users_table us)) by reflexivity.
  cbn [t_cols t_rows Store.users_table].
  rewrite (select_rows_map _ _ _ _ _ (keeps_profile z)).
  vm_eval2 col_indices. now rewrite project_user_rows.
Qed.

Lemma decimal_has_no_nul (z : Z) : 0 <= z -> has_nul (Py.decimal z) = false.
Proof.
  intros Hz. destruct z as [|p|p]; [reflexivity| |lia].
  unfold Py.decimal. cbn [Z.to_int NilZero.string_of_int].
  assert (H : forall d, has_nul (NilEmpty.string_of_uint d) = false)
    by (induction d; cbn; auto).
  unfold NilZero.string_of_uint. destruct (Pos.to_uint p) eqn:E;
    [reflexivity|..]; apply H.
Qed.

Lemma fetchone_user (z : Z) (us : list Store.User) :
  fetchone (map Store.user_row (List.filter (fun x => Store.u_id x =? z) us)) =
  match Store.find_user z us with
  | None => Py.VNone
  | Some u => py_of_row (Store.user_row u)
  end.
Proof.
  induction us as [|x us IH]; [reflexivity|]. simpl.
  now destruct (Store.u_id x =? z).
Qed.

(** C2, as the specification states it, fails on the code. The profile
    of the stored user bob carries, beside [id], [username] and [email],
    the stored password, the national-ID number and the card number. *)
Lemma get_user_profile_exposes :
  fst (Handler.get_user_profile (Py.VInt 2) (boot demo_db)) =
  Returned
    (Py.VDict [("id", Py.VInt 2); ("username", Py.VStr "bob");
               ("email", Py.VStr "bob@example.org");
               ("password", Py.VStr "hunter2");
               ("ssn", Py.VStr "987-65-4321");
               ("credit_card", Py.VStr "5500000000000004")]).
Proof. vm_compute. reflexivity. Qed.

(** C2, amended. For every user store and every id that is a
    non-negative 64-bit integer, [get_user_profile] returns [None] when no
    stored user has that id, and otherwise the dict of all six columns
    of the first stored user with that id: [id], [username], [email],
    and also [password], [ssn] and [credit_card], each with its stored
    value. The lookup is one connect, one execute of the statement with
    the id interpolated, one close, and leaves the database as it was. *)
Theorem get_user_profile_spec
        (w : World) (us : list Store.User) (ks : list Store.Token)
        (rs : list Store.Rec) (user_id : Z) :
  w_db w = Store.database us ks rs ->
  0 <= user_id <= max_int ->
  fst (Handler.get_user_profile (Py.VInt user_id) w) =
    Returned
      (match Store.find_user user_id us with
       | None => Py.VNone
       | Some u =>
           Py.VDict [("id", Py.VInt (Store.u_id u));
                     ("username", Py.VStr (Store.u_username u));
                     ("email", Py.VStr (Store.u_email u));
                     ("password", Py.VStr (Store.u_password u));
                     ("ssn", Py.VStr (Store.u_ssn u));
                     ("credit_card", Py.VStr (Store.u_credit_card u))]
       end)
  /\ w_trace (snd (Handler.get_user_profile (Py.VInt user_id) w)) =
     (w_trace w ++
      [SqliteConnect (DATABASE_PATH (w_globals w));
       CursorExecute (Handler.profile_query (Py.decimal user_id)) [];
       ConnectionClose])%list
  /\ w_db (snd (Handler.get_user_profile (Py.VInt user_id) w)) = w_db w.
Proof.
  intros Hdb Hz. unfold Handler.get_user_profile. cbv zeta.
  cbn [Py.str Py.repr].
  erewrite query_steps;
    [ | unfold Handler.profile_query;
        rewrite !has_nul_app, (decimal_has_no_nul _ (proj1 Hz)); reflexivity
      | rewrite Hdb; apply run_profile_query; exact Hz ].
  rewrite fetchone_user.
  destruct (Store.find_user user_id us) as [u|]; cbn; now rewrite Hdb.
Qed.

Lemma get_user_profile_spec_witness :
  fst (Handler.get_user_profile (Py.VInt 1) (boot demo_db)) =
    Returned
      (Py.VDict [("id", Py.VInt 1); ("username", Py.VStr "alice");
                 ("email", Py.VStr "alice@example.org");
                 ("password", Py.VStr "s3cret");
                 ("ssn", Py.VStr "123-45-6789");
                 ("credit_card", Py.VStr "4111111111111111")])
  /\ w_trace (snd (Handler.get_user_profile (Py.VInt 1) (boot demo_db))) =
     [SqliteConnect "/var/data/app.db";
      CursorExecute
        "SELECT id, username, email, password, ssn, credit_card FROM users WHERE id=1"
        [];
      ConnectionClose]
  /\ w_db (snd (Handler.get_user_profile (Py.VInt 1) (boot demo_db))) = demo_db.
Proof.
  assert (Hid : 0 <= 1 <= max_int) by (split; discriminate).
  exact (get_user_profile_spec (boot demo_db) _ _ _ 1 eq_refl Hid).
Defined.

(* ===================================================================== *)
(** ** Statements that begin with [SELECT] *)
(* ===================================================================== *)









(* ===================================================================== *)
(** ** Every query handler is one round of connect, execute, close *)
(* ===================================================================== *)

Lemma export_data_run (w : World) (format_type query : string) :
  Handler.export_data format_type query w =
  query_result (export_answer format_type) w query.
Proof.
  unfold Handler.export_data.
  apply (query_outcome (export_answer format_type) w query
           (fun data =>
              if String.eqb format_type "csv" then
                ret (Py.VStr (String.concat ","
                       (map (fun row => Py.str (py_of_row row)) data)))
              else ret (fetchall data))).
  intros rows db' _ w'. unfold export_answer.
  now destruct (String.eqb format_type "csv").
Qed.











(* ===================================================================== *)
(** ** Connections and the database across the query handlers *)
(* ===================================================================== *)








(* ===================================================================== *)
(** ** What the lookups answer *)
(* ===================================================================== *)








(* ===================================================================== *)
(** ** Statements broken by a quote *)
(* ===================================================================== *)









(* ===================================================================== *)
(** ** A quote in the input of a lookup *)
(* ===================================================================== *)









(* ===================================================================== *)
(** ** Uploads in a row, backups, export formats *)
(* ===================================================================== *)
Lemma upload_file_opened (w : World) (file_content filename : string) :
  w_open_error w ("/uploads/" +:+ filename) = None ->
  Handler.upload_file file_content filename w =
  (Returned (Py.VDict [("success", Py.VBool true);
                       ("path", Py.VStr ("/uploads/" +:+ filename))]),
   set_files
     (set_trace w
        (w_trace w ++
         [OpenFile ("/uploads/" +:+ filename) "wb";
          FileWrite ("/uploads/" +:+ filename) file_content])%list)
     (<[Path.resolve ("/uploads/" +:+ filename) := file_content]> (w_files w))).
Proof.
  intros Hopen.
  unfold Handler.upload_file, open_write, bind, call, gets, ret. cbn.
  rewrite Hopen. cbn. now rewrite <- app_assoc.
Qed.

(** X8. Two uploads in a row, both under names that can be opened: the
    file that the second name resolves to holds the second content; when
    both names resolve to the same file (as [a.txt] and [./a.txt] do)
    the first upload leaves no mark on the stored files; when they
    resolve to different files the first content is still there; every
    other file is as it was. *)
Theorem upload_file_twice (w : World) (c1 c2 f1 f2 : string) :
  w_open_error w ("/uploads/" +:+ f1) = None ->
  w_open_error w ("/uploads/" +:+ f2) = None ->
  w_files (snd (Handler.upload_file c2 f2
                  (snd (Handler.upload_file c1 f1 w))))
    !! Path.resolve ("/uploads/" +:+ f2) = Some c2
  /\ (Path.resolve ("/uploads/" +:+ f1) = Path.resolve ("/uploads/" +:+ f2) ->
      w_files (snd (Handler.upload_file c2 f2
                      (snd (Handler.upload_file c1 f1 w)))) =
      w_files (snd (Handler.upload_file c2 f2 w)))
  /\ (Path.resolve ("/uploads/" +:+ f1) <> Path.resolve ("/uploads/" +:+ f2) ->
      w_files (snd (Handler.upload_file c2 f2
                      (snd (Handler.upload_file c1 f1 w))))
        !! Path.resolve ("/uploads/" +:+ f1) = Some c1)
  /\ (forall p : list string,
         p <> Path.resolve ("/uploads/" +:+ f1) ->
         p <> Path.resolve ("/uploads/" +:+ f2) ->
         w_files (snd (Handler.upload_file c2 f2
                         (snd (Handler.upload_file c1 f1 w)))) !! p =
         w_files w !! p).
Proof.
  intros H1 H2.
  rewrite (upload_file_opened w c1 f1 H1).
  rewrite (upload_file_opened w c2 f2 H2).
  cbn [snd].
  rewrite upload_file_opened by exact H2.
  cbn. repeat split.
  - apply lookup_insert_eq.
  - intros ->. apply insert_insert_eq.
  - intros Hne. rewrite lookup_insert_ne by congruence. apply lookup_insert_eq.
  - intros p Hp1 Hp2. rewrite !lookup_insert_ne by congruence. reflexivity.
Qed.

Lemma upload_file_twice_witness :
  w_files (snd (Handler.upload_file "second" "./a.txt"
                  (snd (Handler.upload_file "first" "a.txt" (boot demo_db)))))
    !! Path.resolve ("/uploads/" +:+ "./a.txt") = Some "second"
  /\ (Path.resolve ("/uploads/" +:+ "a.txt") =
      Path.resolve ("/uploads/" +:+ "./a.txt") ->
      w_files (snd (Handler.upload_file "second" "./a.txt"
                      (snd (Handler.upload_file "first" "a.txt"
                              (boot demo_db))))) =
      w_files (snd (Handler.upload_file "second" "./a.txt" (boot demo_db))))
  /\ (Path.resolve ("/uploads/" +:+ "a.txt") <>
      Path.resolve ("/uploads/" +:+ "./a.txt") ->
      w_files (snd (Handler.upload_file "second" "./a.txt"
                      (snd (Handler.upload_file "first" "a.txt"
                              (boot demo_db)))))
        !! Path.resolve ("/uploads/" +:+ "a.txt") = Some "first")
  /\ (forall p : list string,
         p <> Path.resolve ("/uploads/" +:+ "a.txt") ->
         p <> Path.resolve ("/uploads/" +:+ "./a.txt") ->
         w_files (snd (Handler.upload_file "second" "./a.txt"
                         (snd (Handler.upload_file "first" "a.txt"
                                 (boot demo_db))))) !! p =
         w_files (boot demo_db) !! p).
Proof.
  exact (upload_file_twice (boot demo_db) "first" "second" "a.txt" "./a.txt"
           eq_refl eq_refl).
Defined.


(** X10. [create_backup] answers [{success: True}] whatever the exit
    status of the copy command, a failed copy included; it raises only
    what [os.system] raises. *)
Theorem create_backup_answer (w : World) (backup_name : string) :
  fst (Handler.create_backup backup_name w) =
  match w_shell w (CmdLine ("cp " +:+ DATABASE_PATH (w_globals w) +:+
                            " /backups/" +:+ backup_name +:+ ".db")) with
  | ExitStatus _ => Returned (Py.VDict [("success", Py.VBool true)])
  | ShellFail e => Raised e
  end.
Proof.
  unfold Handler.create_backup, os_system, bind, call, gets. cbn.
  now destruct (w_shell w _).
Qed.

(** X11. The format argument of [export_data] plays no role in what is
    executed: for every two formats the calls made and the state left
    behind are the same, and the handler returns, or raises the same
    exception, for both. Every format other than exactly [csv] gives
    the answer of [json], the list of rows. *)
Theorem export_data_format (w : World) (query : string) :
  (forall f1 f2 : string,
      snd (Handler.export_data f1 query w) =
      snd (Handler.export_data f2 query w))
  /\ (forall f1 f2 : string,
         match fst (Handler.export_data f1 query w),
               fst (Handler.export_data f2 query w) with
         | Returned _, Returned _ => True
         | Raised e1, Raised e2 => e1 = e2
         | Unmodelled, Unmodelled => True
         | _, _ => False
         end)
  /\ (forall f : string,
         String.eqb f "csv" = false ->
         Handler.export_data f query w =
         Handler.export_data "json" query w).
Proof.
  repeat split.
  - intros f1 f2. rewrite !export_data_run. unfold query_result.
    destruct (has_nul query); [reflexivity|].
    now destruct (run (w_db w) query) as [rows db'|[]|].
  - intros f1 f2. rewrite !export_data_run. unfold query_result.
    destruct (has_nul query); [reflexivity|].
    now destruct (run (w_db w) query) as [rows db'|[]|].
  - intros f Hf. rewrite !export_data_run. unfold query_result, export_answer.
    rewrite Hf. reflexivity.
Qed.

(** X12. [search_database] is [export_data] on the statement it
    builds: for every term and every format other than [csv], both give
    the same outcome and leave the same world. *)
Theorem search_database_is_export (w : World) (term format_type : string) :
  String.eqb format_type "csv" = false ->
  Handler.search_database term w =
  Handler.export_data format_type (Handler.search_query term) w.
Proof.
  intros Hf. rewrite search_database_run, export_data_run.
  unfold query_result, export_answer. rewrite Hf. reflexivity.
Qed.

Lemma search_database_is_export_witness :
  Handler.search_database "o_b" (boot demo_db) =
  Handler.export_data "json" (Handler.search_query "o_b") (boot demo_db).
Proof.
  exact (search_database_is_export (boot demo_db) "o_b" "json" eq_refl).
Defined.

(* ===================================================================== *)
(** ** [str.replace] *)
(* ===================================================================== *)

Lemma prefix_app (old rest : string) :
  String.prefix old (old +:+ rest) = true.
Proof.
  induction old as [|c old IH].
  - rewrite append_nil_l. now destruct rest.
  - rewrite append_cons. cbn. now destruct (ascii_dec c c).
Qed.

Lemma replace_from_skip (skipped old new rest : string) :
  Text.replace_from (String.length skipped) old new (skipped +:+ rest) =
  Text.replace_from 0 old new rest.
Proof.
  induction skipped as [|c skipped IH]; [now rewrite append_nil_l|].
  rewrite append_cons. cbn. exact IH.
Qed.

Lemma replace_from_match (c : ascii) (old new rest : string) :
  Text.replace_from 0 (String c old) new (String c old +:+ rest) =
  new +:+ Text.replace_from 0 (String c old) new rest.
Proof.
  rewrite append_cons. cbn [Text.replace_from].
  rewrite <- append_cons, prefix_app.
  cbn [String.length]. rewrite Nat.sub_1_r. cbn [Nat.pred].
  f_equal. apply replace_from_skip.
Qed.

Lemma replace_from_absent (old new s : string) :
  old <> EmptyString ->
  Text.occurs old s = false ->
  Text.replace_from 0 old new s = s.
Proof.
  intros Hold. induction s as [|c s IH]; [reflexivity|].
  cbn [Text.occurs Text.replace_from]. intros H.
  apply orb_false_elim in H as [Hp Hs]. rewrite Hp. f_equal. now apply IH.
Qed.

Lemma replace_from_before (c : ascii) (old new a rest : string) :
  Py.has_char (N_of_ascii c) a = false ->
  Text.replace_from 0 (String c old) new (a +:+ rest) =
  a +:+ Text.replace_from 0 (String c old) new rest.
Proof.
  induction a as [|x a IH]; intros H; [now rewrite !append_nil_l|].
  cbn [Py.has_char] in H. apply orb_false_elim in H as [Hx Ha].
  rewrite !append_cons. cbn [Text.replace_from String.prefix].
  destruct (ascii_dec c x) as [->|Hne].
  - now rewrite N.eqb_refl in Hx.
  - f_equal. now apply IH.
Qed.

(* ===================================================================== *)
(** ** Templates: [render_template] *)
(* ===================================================================== *)

Lemma render_template_read (h : Host.Host) (template_name user_input : string) :
  Host.render_template template_name user_input h =
  (match Host.h_read h ("templates/" +:+ template_name) with
   | Host.ReadText template =>
       Returned (Py.VStr (Text.replace template "{{content}}" user_input))
   | Host.ReadFail e => Raised e
   end,
   Host.set_world h
     (set_trace (Host.h_world h)
        (w_trace (Host.h_world h) ++
         [OpenFile ("templates/" +:+ template_name) "r"])%list)).
Proof.
  unfold Host.render_template, Host.open_read, Host.hbind, Host.lift, call.
  cbn. now destruct (Host.h_read h _).
Qed.

(** X13. [render_template] opens [templates/] followed by the caller's
    template name, unchanged, and makes no other call. When the file
    cannot be read it raises the exception of the read; a template in
    which [{{content}}] does not occur is returned as it is, whatever
    the user input. *)
Theorem render_template_plain (h : Host.Host)
    (template_name user_input : string) :
  match Host.h_read h ("templates/" +:+ template_name) with
  | Host.ReadFail e =>
      fst (Host.render_template template_name user_input h) = Raised e
  | Host.ReadText template =>
      Text.occurs "{{content}}" template = false ->
      fst (Host.render_template template_name user_input h) =
      Returned (Py.VStr template)
  end
  /\ snd (Host.render_template template_name user_input h) =
     Host.set_world h
       (set_trace (Host.h_world h)
          (w_trace (Host.h_world h) ++
           [OpenFile ("templates/" +:+ template_name) "r"])%list).
Proof.
  rewrite render_template_read. split; [|reflexivity].
  destruct (Host.h_read h _) as [template|e]; [|reflexivity].
  intros Habsent. cbn [fst]. unfold Text.replace.
  now rewrite replace_from_absent.
Qed.

(** X14. A template that reads [before {{content}} rest], with no
    brace in [before], is rendered as [before], the user input, and the
    rendering of [rest]: the input is put in unchanged and is not
    scanned again, even when it contains the placeholder itself. When
    the placeholder does not occur in [rest], the result is [before],
    the input, [rest]. *)
Theorem render_template_fills (h : Host.Host)
    (template_name user_input before rest : string) :
  Host.h_read h ("templates/" +:+ template_name) =
    Host.ReadText (before +:+ "{{content}}" +:+ rest) ->
  Py.has_char 123 before = false ->
  fst (Host.render_template template_name user_input h) =
    Returned (Py.VStr (before +:+ user_input +:+
                       Text.replace rest "{{content}}" user_input))
  /\ (Text.occurs "{{content}}" rest = false ->
      fst (Host.render_template template_name user_input h) =
      Returned (Py.VStr (before +:+ user_input +:+ rest))).
Proof.
  intros Hread Hbefore.
  rewrite render_template_read, Hread. cbn [fst]. unfold Text.replace.
  rewrite (replace_from_before "{" "{content}}" user_input before _ Hbefore).
  rewrite replace_from_match. split; [reflexivity|].
  intros Habsent. now rewrite replace_from_absent.
Qed.

Lemma render_template_fills_witness :
  fst (Host.render_template "page.html" "{{content}} & <b>"
         (Host.boot demo_db)) =
    Returned (Py.VStr ("<p>" +:+ "{{content}} & <b>" +:+
                       Text.replace "</p>" "{{content}}" "{{content}} & <b>"))
  /\ (Text.occurs "{{content}}" "</p>" = false ->
      fst (Host.render_template "page.html" "{{content}} & <b>"
             (Host.boot demo_db)) =
      Returned (Py.VStr ("<p>" +:+ "{{content}} & <b>" +:+ "</p>"))).
Proof.
  assert (Hread : Host.h_read (Host.boot demo_db) ("templates/" +:+ "page.html")
                  = Host.ReadText ("<p>" +:+ "{{content}}" +:+ "</p>"))
    by reflexivity.
  assert (Hbefore : Py.has_char 123 "<p>" = false) by reflexivity.
  exact (render_template_fills (Host.boot demo_db) "page.html"
           "{{content}} & <b>" "<p>" "</p>" Hread Hbefore).
Defined.

(* ===================================================================== *)
(** ** The request log: [log_request] *)
(* ===================================================================== *)

Lemma ascii_only_app (a b : string) :
  Text.ascii_only (a +:+ b) = Text.ascii_only a && Text.ascii_only b.
Proof.
  induction a as [|c a IH]; [reflexivity|].
  rewrite append_cons. cbn. now rewrite IH, andb_assoc.
Qed.

Lemma log_request_logged (h : Host.Host) (request_data : Py.Val) :
  DEBUG_MODE (w_globals (Host.h_world h)) = true ->
  Host.h_print_error h ("Request received: " +:+ Py.str request_data) = None ->
  w_open_error (Host.h_world h) "/var/log/app.log" = None ->
  Text.ascii_only (Py.str request_data) = true ->
  Host.log_request request_data h =
  (Returned Py.VNone,
   Host.mkHost
     (set_files
        (set_trace (Host.h_world h)
           (w_trace (Host.h_world h) ++
            [OpenFile "/var/log/app.log" "a";
             FileWrite "/var/log/app.log" (Py.str request_data +:+ nl)])%list)
        (<[Host.log_path :=
             default "" (w_files (Host.h_world h) !! Host.log_path) +:+
             (Py.str request_data +:+ nl)]> (w_files (Host.h_world h))))
     (Host.h_stdout h +:+ ("Request received: " +:+ Py.str request_data) +:+ nl)
     (Host.h_read h) (Host.h_print_error h)).
Proof.
  destruct h as [w out rd pe]. cbn [Host.h_world Host.h_print_error
    Host.h_stdout Host.h_read].
  intros Hdebug Hprint Hopen Hascii.
  unfold Host.log_request, Host.hbind, Host.lift, Host.print, Host.open_append,
    Host.hret, Host.set_world, Host.set_stdout, bind, call, gets, raise.
  change (Path.resolve "/var/log/app.log") with Host.log_path.
  cbn -[Py.str]. rewrite Hdebug. cbn -[Py.str]. rewrite Hprint.
  cbn -[Py.str]. rewrite Hopen.
  cbn -[Py.str]. rewrite ascii_only_app, Hascii. cbn -[Py.str].
  now rewrite <- app_assoc.
Qed.

(** X15. With [DEBUG_MODE] off, [log_request] does nothing: it prints
    nothing, opens nothing and returns. With [DEBUG_MODE] on it prints
    first: when printing raises, the log file has not been opened; when
    the log file cannot be opened, the line has been printed already
    and nothing is written; otherwise it opens [/var/log/app.log] for
    appending and writes the text of the request and a line feed. *)
Theorem log_request_guard (h : Host.Host) (request_data : Py.Val) :
  if DEBUG_MODE (w_globals (Host.h_world h)) then
    match Host.h_print_error h ("Request received: " +:+ Py.str request_data)
    with
    | Some e => Host.log_request request_data h = (Raised e, h)
    | None =>
        match w_open_error (Host.h_world h) "/var/log/app.log" with
        | Some e =>
            Host.log_request request_data h =
            (Raised e,
             Host.mkHost
               (set_trace (Host.h_world h)
                  (w_trace (Host.h_world h) ++
                   [OpenFile "/var/log/app.log" "a"])%list)
               (Host.h_stdout h +:+
                ("Request received: " +:+ Py.str request_data) +:+ nl)
               (Host.h_read h) (Host.h_print_error h))
        | None =>
            w_trace (Host.h_world (snd (Host.log_request request_data h))) =
            (w_trace (Host.h_world h) ++
             [OpenFile "/var/log/app.log" "a";
              FileWrite "/var/log/app.log" (Py.str request_data +:+ nl)])%list
        end
    end
  else Host.log_request request_data h = (Returned Py.VNone, h).
Proof.
  unfold Host.log_request, Host.hbind, Host.lift, Host.print, Host.open_append,
    Host.hret, Host.set_world, Host.set_stdout, bind, call, gets, raise.
  change (Path.resolve "/var/log/app.log") with Host.log_path.
  destruct h as [w out rd pe]. cbn -[Py.str].
  destruct (DEBUG_MODE (w_globals w)); cbn -[Py.str]; [|reflexivity].
  destruct (pe _) as [e|]; cbn -[Py.str]; [reflexivity|].
  destruct (w_open_error w _) as [e|]; cbn -[Py.str]; [reflexivity|].
  destruct (Text.ascii_only _); cbn -[Py.str]; now rewrite <- app_assoc.
Qed.

(** X16. With [DEBUG_MODE] on, an output that takes every text and a
    log file that can be opened, a sequence of requests of ASCII text
    adds to the output, in order, one line [Request received: text] per
    request and to the end of the log file, in order, one line per
    request with the text of the request unchanged; what the log file
    held before stays in front, every other file is as it was, and the
    calls made are one open for appending and one write per request. *)
Theorem log_requests_append (h : Host.Host) (requests : list Py.Val) :
  DEBUG_MODE (w_globals (Host.h_world h)) = true ->
  (forall text : string, Host.h_print_error h text = None) ->
  w_open_error (Host.h_world h) "/var/log/app.log" = None ->
  forallb (fun r => Text.ascii_only (Py.str r)) requests = true ->
  Host.h_stdout (Host.log_requests requests h) =
    Host.h_stdout h +:+ Host.printed_lines requests
  /\ default "" (w_files (Host.h_world (Host.log_requests requests h))
                   !! Host.log_path) =
     default "" (w_files (Host.h_world h) !! Host.log_path) +:+
     Host.logged_lines requests
  /\ (forall p : list string,
         p <> Host.log_path ->
         w_files (Host.h_world (Host.log_requests requests h)) !! p =
         w_files (Host.h_world h) !! p)
  /\ w_trace (Host.h_world (Host.log_requests requests h)) =
     (w_trace (Host.h_world h) ++
      flat_map (fun r => [OpenFile "/var/log/app.log" "a";
                          FileWrite "/var/log/app.log" (Py.str r +:+ nl)])
               requests)%list.
Proof.
  revert h. induction requests as [|r rest IH]; intros h Hdebug Hprint Hopen Hall.
  - cbn. rewrite !append_nil_r, app_nil_r. now repeat split.
  - cbn [forallb] in Hall. apply andb_prop in Hall as [Hr Hrest].
    change (Host.log_requests (r :: rest) h)
      with (Host.log_requests rest (snd (Host.log_request r h))).
    rewrite (log_request_logged h r Hdebug (Hprint _) Hopen Hr). cbn [snd].
    match goal with |- context [Host.log_requests rest ?h1] =>
      destruct (IH h1) as (Hout & Hlog & Hframe & Htrace);
        [exact Hdebug | exact Hprint | exact Hopen | exact Hrest |]
    end.
    rewrite Hout, Hlog, Htrace. cbn -[Py.str]. repeat split.
    + now rewrite !append_assoc.
    + rewrite lookup_insert_eq. cbn -[Py.str]. now rewrite !append_assoc.
    + intros p Hp. rewrite (Hframe p Hp). cbn -[Py.str].
      now rewrite lookup_insert_ne by congruence.
    + now rewrite <- app_assoc.
Qed.

Lemma log_requests_append_witness :
  Host.h_stdout
    (Host.log_requests [Py.VStr "GET /"; Py.VInt 7] (Host.boot demo_db)) =
    "" +:+ Host.printed_lines [Py.VStr "GET /"; Py.VInt 7]
  /\ default "" (w_files (Host.h_world
                            (Host.log_requests [Py.VStr "GET /"; Py.VInt 7]
                               (Host.boot demo_db)))
                   !! Host.log_path) =
     default "" (w_files (Host.h_world (Host.boot demo_db)) !! Host.log_path) +:+
     Host.logged_lines [Py.VStr "GET /"; Py.VInt 7]
  /\ (forall p : list string,
         p <> Host.log_path ->
         w_files (Host.h_world
                    (Host.log_requests [Py.VStr "GET /"; Py.VInt 7]
                       (Host.boot demo_db))) !! p =
         w_files (Host.h_world (Host.boot demo_db)) !! p)
  /\ w_trace (Host.h_world
                (Host.log_requests [Py.VStr "GET /"; Py.VInt 7]
                   (Host.boot demo_db))) =
     ([] ++
      flat_map (fun r => [OpenFile "/var/log/app.log" "a";
                          FileWrite "/var/log/app.log" (Py.str r +:+ nl)])
               [Py.VStr "GET /"; Py.VInt 7])%list.
Proof.
  assert (Hprint : forall text : string,
             Host.h_print_error (Host.boot demo_db) text = None)
    by reflexivity.
  assert (Hall : forallb (fun r => Text.ascii_only (Py.str r))
                   [Py.VStr "GET /"; Py.VInt 7] = true) by reflexivity.
  exact (log_requests_append (Host.boot demo_db) [Py.VStr "GET /"; Py.VInt 7]
           eq_refl Hprint eq_refl Hall).
Defined.
